(** * metaspace_download: a shallow embedding of [download_dataset_results]

    The program is one Python function.  It asks the METASPACE service for
    the database descriptors of a dataset, parses a "name version" string
    out of each, filters them by the caller's [database] and [version]
    arguments, fetches one result table per selected descriptor, glues the
    tables together, derives two columns and writes a CSV file.

    The embedding keeps that shape:
    - Python [str] is [string]; a character is a code point below 256;
    - a pandas DataFrame is an index length with a list of named columns;
    - [print], the remote fetch and [to_csv] are events of a trace, and an
      uncaught Python exception ends the run ([Raise]);
    - the service is a pair of total functions: a request that fails would
      propagate as an exception of the service and is not part of the model. *)

From Stdlib Require Import String Ascii List Bool Arith Lia DecimalString.
Import ListNotations.
Open Scope string_scope.
Open Scope list_scope.
Open Scope nat_scope.

Set Implicit Arguments.

(* ================================================================= *)
(** ** Python string operations *)

Module PyStr.

(** [s.split(sep)] for a one-character separator: every occurrence cuts,
    empty fields are kept, and the empty string yields one empty field. *)
Fixpoint split_on (sep : ascii) (s : string) : list string :=
  match s with
  | EmptyString => [EmptyString]
  | String c s' =>
      if Ascii.eqb c sep then EmptyString :: split_on sep s'
      else match split_on sep s' with
           | w :: ws => String c w :: ws
           | [] => [String c EmptyString]
           end
  end.

(** [l[1:3]]: the elements at index 1 and 2, as far as they exist. *)
Definition slice_1_3 (A : Type) (l : list A) : list A :=
  firstn 2 (skipn 1 l).

(** [s.lstrip(c)], [s.rstrip(c)] and [s.strip(c)] for a one-character set. *)
Fixpoint lstrip (c : ascii) (s : string) : string :=
  match s with
  | String a s' => if Ascii.eqb a c then lstrip c s' else s
  | EmptyString => EmptyString
  end.

Fixpoint rstrip (c : ascii) (s : string) : string :=
  match s with
  | EmptyString => EmptyString
  | String a s' =>
      match rstrip c s' with
      | EmptyString => if Ascii.eqb a c then EmptyString else String a EmptyString
      | r => String a r
      end
  end.

Definition strip (c : ascii) (s : string) : string := rstrip c (lstrip c s).

(** [sep.join(l)]. *)
Fixpoint join (sep : string) (l : list string) : string :=
  match l with
  | [] => EmptyString
  | [w] => w
  | w :: ws => (w ++ sep ++ join sep ws)%string
  end.

(** [str.isspace] on one character: TAB..CR, FS..US, space, NEL, NBSP. *)
Definition isspace (c : ascii) : bool :=
  let n := nat_of_ascii c in
  ((9 <=? n) && (n <=? 13)) || ((28 <=? n) && (n <=? 32))
  || (n =? 133) || (n =? 160).

(** [s.split()] with no argument: maximal runs of non-whitespace. *)
Fixpoint split (s : string) : list string :=
  match s with
  | EmptyString => []
  | String c s' =>
      if isspace c then split s'
      else match s' with
           | EmptyString => [String c EmptyString]
           | String c' _ =>
               if isspace c' then String c EmptyString :: split s'
               else match split s' with
                    | w :: ws => String c w :: ws
                    | [] => [String c EmptyString]
                    end
           end
  end.

(** [s.startswith(p)]. *)
Definition startswith (s p : string) : bool := String.prefix p s.

(** The character class [[A-Za-z0-9]]. *)
Definition isalnum (c : ascii) : bool :=
  let n := nat_of_ascii c in
  ((65 <=? n) && (n <=? 90)) || ((97 <=? n) && (n <=? 122))
  || ((48 <=? n) && (n <=? 57)).

(** The longest prefix of [s] made of [[A-Za-z0-9]] characters. *)
Fixpoint alnum_run (s : string) : string :=
  match s with
  | String c s' => if isalnum c then String c (alnum_run s') else EmptyString
  | EmptyString => EmptyString
  end.

(** A match of [\+[A-Za-z0-9]+] anchored at the start of [s]. *)
Definition match_adduct (s : string) : option string :=
  match s with
  | String c s' =>
      if Ascii.eqb c "+"%char then
        match alnum_run s' with
        | EmptyString => None
        | run => Some (String "+"%char run)
        end
      else None
  | EmptyString => None
  end.

(** [re.search(r'(\+[A-Za-z0-9]+)', s)]: the leftmost start that matches,
    group 1 of the match. *)
Fixpoint search_adduct (s : string) : option string :=
  match match_adduct s with
  | Some m => Some m
  | None => match s with
            | String _ s' => search_adduct s'
            | EmptyString => None
            end
  end.

End PyStr.

(* ================================================================= *)
(** ** DataFrames *)

(** A scalar in a cell: pandas' missing value [NaN], text, or a number (the
    numbers of the service are not told apart any further). *)
Inductive cell : Type :=
| NaN
| Str (s : string)
| Num (n : nat).

(** [index] is [len(df.index)]; [data] lists the columns in order, each with
    its values from top to bottom. *)
Record DataFrame : Type := mkDataFrame {
  index : nat;
  data : list (string * list cell)
}.

Module Pd.

(** [pd.DataFrame()]. *)
Definition empty : DataFrame := mkDataFrame 0 [].

(** [df.columns]. *)
Definition columns (df : DataFrame) : list string := map fst (data df).

(** [c in df.columns]. *)
Definition has_column (c : string) (df : DataFrame) : bool :=
  existsb (String.eqb c) (columns df).

Fixpoint lookup (c : string) (d : list (string * list cell)) : option (list cell) :=
  match d with
  | [] => None
  | (k, vs) :: d' => if String.eqb c k then Some vs else lookup c d'
  end.

(** [df[c]] for a column that exists. *)
Definition getitem (c : string) (df : DataFrame) : option (list cell) :=
  lookup c (data df).

(** The values of column [c] after a reindex to columns that contain [c]:
    the column itself, or all [NaN] when [df] has no such column. *)
Definition column (c : string) (df : DataFrame) : list cell :=
  match getitem c df with
  | Some vs => vs
  | None => repeat NaN (index df)
  end.

(** [df[c] = vs]: overwrite the column(s) named [c], or append a new one. *)
Definition setitem (c : string) (vs : list cell) (df : DataFrame) : DataFrame :=
  if has_column c df
  then mkDataFrame (index df)
         (map (fun kv => if String.eqb c (fst kv) then (fst kv, vs) else kv) (data df))
  else mkDataFrame (index df) (data df ++ [(c, vs)]).

(** [df[c] = v] for a scalar [v]: broadcast along the index. *)
Definition setitem_scalar (c : string) (v : cell) (df : DataFrame) : DataFrame :=
  setitem c (repeat v (index df)) df.

(** The column labels of an outer join, in first-seen order. *)
Definition union_columns (a b : list string) : list string :=
  a ++ filter (fun c => negb (existsb (String.eqb c) a)) b.

(** [pd.concat([a, b], ignore_index=True)]: outer join on the columns,
    rows of [a] above those of [b], holes filled with [NaN]. *)
Definition concat (a b : DataFrame) : DataFrame :=
  mkDataFrame (index a + index b)
    (map (fun c => (c, column c a ++ column c b))
         (union_columns (columns a) (columns b))).

(** [df.rename(columns={old: new}, inplace=True)]. *)
Definition rename (old new : string) (df : DataFrame) : DataFrame :=
  mkDataFrame (index df)
    (map (fun kv => if String.eqb (fst kv) old then (new, snd kv) else kv) (data df)).

(** One cell of [Series.str.extract(r'(\+[A-Za-z0-9]+)')] on a column of
    object dtype, as a column that holds text is: text is searched, anything
    else gives [NaN]. *)
Definition str_extract (v : cell) : cell :=
  match v with
  | Str s => match PyStr.search_adduct s with
             | Some m => Str m
             | None => NaN
             end
  | _ => NaN
  end.

End Pd.

(* ================================================================= *)
(** ** Effects: console, service requests, the file system *)

(** What a run does to the outside world, in order. *)
Inductive event : Type :=
| Print (line : string)
| Results (name ver : string)
| ToCsv (filename : string) (df : DataFrame).

(** The Python exceptions this function can raise by itself. *)
Inductive exn : Type :=
| ValueError
| IndexError.

Inductive result (A : Type) : Type :=
| Raise (e : exn)
| Return (a : A).
Arguments Raise {A} e.
Arguments Return {A} a.

(** A run: the events so far and how the run ended. *)
Record run (A : Type) : Type := mkRun {
  trace : list event;
  outcome : result A
}.

Definition ret (A : Type) (a : A) : run A := mkRun [] (Return a).

Definition raise (A : Type) (e : exn) : run A := mkRun [] (Raise e).
Arguments raise {A} e.

Definition emit (e : event) : run unit := mkRun [e] (Return tt).

Definition bind (A B : Type) (m : run A) (f : A -> run B) : run B :=
  match outcome m with
  | Raise e => mkRun (trace m) (Raise e)
  | Return a => mkRun (trace m ++ trace (f a)) (outcome (f a))
  end.

Declare Scope run_scope.
Delimit Scope run_scope with run.
Notation "x <- m ;; k" := (bind m (fun x => k))
  (at level 61, m at next level, right associativity) : run_scope.
Notation "m ;; k" := (bind m (fun _ => k))
  (at level 61, right associativity) : run_scope.
Open Scope run_scope.

(** [for x in l: body(x)] with no loop-carried value. *)
Fixpoint for_each (A : Type) (body : A -> run unit) (l : list A) : run unit :=
  match l with
  | [] => ret tt
  | x :: l' => body x ;; for_each body l'
  end.

(** A list comprehension whose element expression may raise. *)
Fixpoint comprehension (A B : Type) (f : A -> run B) (l : list A) : run (list B) :=
  match l with
  | [] => ret []
  | x :: l' => y <- f x ;; ys <- comprehension f l' ;; ret (y :: ys)
  end.

Definition print (line : string) : run unit := emit (Print line).

(** The dataset object of the service: [str(db)] for each entry of
    [dataset.database_details], and the table that
    [pd.DataFrame(dataset.results(database=(name, ver)))] builds. *)
Record Dataset : Type := mkDataset {
  database_details : list string;
  results : string -> string -> DataFrame
}.

(** [SMInstance()]: [sm.dataset(id=...)]. *)
Record SMInstance : Type := mkSM {
  dataset : string -> Dataset
}.

(* ================================================================= *)
(** ** The function, block by block *)

(** Lines 31-36: the "name version" string of one descriptor. *)
Definition parse_descriptor (db_str : string) : string :=
  let name_version := PyStr.slice_1_3 (PyStr.split_on ":"%char db_str) in
  let name_version := map (PyStr.strip ">"%char) name_version in
  PyStr.join " " name_version.

(** Truthiness of an optional string: [None] and [""] are false. *)
Definition truthy (o : option string) : bool :=
  match o with
  | Some s => negb (String.eqb s "")
  | None => false
  end.

(** [f"{database}"] inside a branch guarded by [if database:]. *)
Definition fmt (o : option string) : string :=
  match o with
  | Some s => s
  | None => "None"
  end.

(** [database is None or database == name]. *)
Definition is_none_or_eq (o : option string) (s : string) : bool :=
  match o with
  | None => true
  | Some x => String.eqb x s
  end.

Definition is_none (o : option string) : bool :=
  match o with
  | None => true
  | Some _ => false
  end.

(** Line 40: the descriptors whose string starts with [database]. *)
Definition matched_databases (database : option string) (database_info : list string)
  : list string :=
  filter (fun db => PyStr.startswith db (fmt database)) database_info.

(** [name, ver = db.split()]. *)
Definition unpack2 (l : list string) : run (string * string) :=
  match l with
  | [name; ver] => ret (name, ver)
  | _ => raise ValueError
  end.

(** [l[i]]. *)
Definition subscript (A : Type) (l : list A) (i : nat) : run A :=
  match nth_error l i with
  | Some x => ret x
  | None => raise IndexError
  end.

(** Lines 47-51: the warning about several versions. *)
Definition warn_versions (database version : option string) (matched : list string)
  : run unit :=
  if (1 <? length matched) && is_none version then
    print ("Warning: Multiple versions found for database " ++ fmt database ++ ".")%string ;;
    print "Available versions:" ;;
    for_each print matched
  else ret tt.

(** Lines 60-65: fetch one table, tag it, append it. *)
Definition fetch_one (ds : Dataset) (name ver : string) (results_df : DataFrame)
  : run DataFrame :=
  print ("Processing database: " ++ name ++ ", version: " ++ ver)%string ;;
  emit (Results name ver) ;;
  let result_df := results ds name ver in
  let result_df := Pd.setitem_scalar "Database" (Str name) result_df in
  let result_df := Pd.setitem_scalar "Version" (Str ver) result_df in
  ret (Pd.concat results_df result_df).

(** Lines 57-65: the loop over [database_info], threading [results_df]. *)
Fixpoint fetch_loop (ds : Dataset) (database version : option string)
    (database_info : list string) (results_df : DataFrame) : run DataFrame :=
  match database_info with
  | [] => ret results_df
  | db :: rest =>
      nv <- unpack2 (PyStr.split db) ;;
      let name := fst nv in
      let ver := snd nv in
      results_df <-
        (if is_none_or_eq database name && is_none_or_eq version ver
         then fetch_one ds name ver results_df
         else ret results_df) ;;
      fetch_loop ds database version rest results_df
  end.

(** Lines 68-69. *)
Definition derive_adduct (df : DataFrame) : DataFrame :=
  if Pd.has_column "ion" df
  then Pd.setitem "Adduct" (map Pd.str_extract (Pd.column "ion" df)) df
  else df.

(** Lines 71-72. *)
Definition rename_intensity (df : DataFrame) : DataFrame :=
  if Pd.has_column "intensity" df
  then Pd.rename "intensity" "maxIntensity" df
  else df.

(** Lines 67-72: the column deriver. *)
Definition derive_columns (df : DataFrame) : DataFrame :=
  rename_intensity (derive_adduct df).

(** Lines 75-82: the name of the CSV file. *)
Definition make_filename (database : option string) (database_info : list string)
  : run string :=
  if truthy database then
    matched_versions <-
      comprehension (fun db => subscript (PyStr.split db) 1)
        (matched_databases database database_info) ;;
    if 1 <? length matched_versions
    then ret (fmt database ++ "_all_versions.csv")%string
    else v <- subscript matched_versions 0 ;;
         ret (fmt database ++ "_" ++ v ++ ".csv")%string
  else ret "all_databases.csv".

(** Lines 53-87: what runs once the name check has let the call through. *)
Definition fetch_derive_save (ds : Dataset) (database version : option string)
    (database_info : list string) : run (option DataFrame) :=
  results_df <- fetch_loop ds database version database_info Pd.empty ;;
  let results_df := derive_columns results_df in
  filename <- make_filename database database_info ;;
  emit (ToCsv filename results_df) ;;
  print ("Results saved to " ++ filename)%string ;;
  ret (Some results_df).

(** Lines 24-87.  The returned [None] is Python's [None]. *)
Definition download_dataset_results (sm : SMInstance) (dataset_id : string)
    (database version : option string) : run (option DataFrame) :=
  let ds := dataset sm dataset_id in
  let databases := database_details ds in
  let database_info := map parse_descriptor databases in
  if truthy database then
    let matched := matched_databases database database_info in
    match matched with
    | [] =>
        print ("Could not find database: " ++ fmt database)%string ;;
        print "Available databases and versions:" ;;
        for_each print database_info ;;
        ret None
    | _ :: _ =>
        warn_versions database version matched ;;
        fetch_derive_save ds database version database_info
    end
  else fetch_derive_save ds database version database_info.

(** [f"{n}"] for a length. *)
Definition decimal (n : nat) : string := NilZero.string_of_uint (Nat.to_uint n).

(** Lines 89-101: the example invocation.  [index_repr] stands for
    [str(data.columns)], the text pandas prints for a column index. *)
Definition main (index_repr : list string -> string) (sm : SMInstance) : run unit :=
  let dataset_id := "2022-08-05_17h28m56s" in
  let database := Some "KEGG" in
  let version := None in
  data <- download_dataset_results sm dataset_id database version ;;
  match data with
  | Some data =>
      print (index_repr (Pd.columns data)) ;;
      print ("Number of columns: " ++ decimal (length (Pd.columns data)))%string
  | None => ret tt
  end.

(* ================================================================= *)
(** ** Vocabulary of the statements *)

(** The descriptor string splits into exactly two tokens. *)
Definition two_tokens (db : string) : bool :=
  length (PyStr.split db) =? 2.

(** The parsed name and version of a descriptor string: its first and
    second whitespace-separated token. *)
Definition name_of (db : string) : string := nth 0 (PyStr.split db) "".
Definition version_of (db : string) : string := nth 1 (PyStr.split db) "".

(** The test of line 59 on one descriptor. *)
Definition selects (database version : option string) (db : string) : bool :=
  is_none_or_eq database (name_of db) && is_none_or_eq version (version_of db).

(** The descriptors the loop fetches, in the order of [database_info]. *)
Definition selected (database version : option string) (database_info : list string)
  : list string :=
  filter (selects database version) database_info.

(** The table the service returns for a descriptor, and the same table
    with its two tag columns. *)
Definition fetched (ds : Dataset) (db : string) : DataFrame :=
  results ds (name_of db) (version_of db).

Definition tagged (ds : Dataset) (db : string) : DataFrame :=
  Pd.setitem_scalar "Version" (Str (version_of db))
    (Pd.setitem_scalar "Database" (Str (name_of db)) (fetched ds db)).

(** The running table after appending the tagged tables of [dbs]. *)
Definition combine (ds : Dataset) (dbs : list string) (acc : DataFrame) : DataFrame :=
  fold_left (fun acc db => Pd.concat acc (tagged ds db)) dbs acc.

(** What the loop body shows of one fetched descriptor. *)
Definition fetch_events (db : string) : list event :=
  [Print ("Processing database: " ++ name_of db ++ ", version: " ++ version_of db)%string;
   Results (name_of db) (version_of db)].

(** The lines of the warning of lines 48-51. *)
Definition warning_events (d : string) (matched : list string) : list event :=
  Print ("Warning: Multiple versions found for database " ++ d ++ ".")%string
  :: Print "Available versions:" :: map Print matched.

(** The parsed descriptor strings of a dataset (lines 29-36). *)
Definition descriptors_of (sm : SMInstance) (dataset_id : string) : list string :=
  map parse_descriptor (database_details (dataset sm dataset_id)).

(** The test of line 40 on one descriptor. *)
Definition prefix_matches (d db : string) : bool := PyStr.startswith db d.

(** The warning the run prints, if any. *)
Definition warning_part (database version : option string) (database_info : list string)
  : list event :=
  let matched := matched_databases database database_info in
  if truthy database && (1 <? length matched) && is_none version
  then warning_events (fmt database) matched
  else [].

(** The file name lines 75-82 arrive at when no subscript fails. *)
Definition file_name (database : option string) (database_info : list string) : string :=
  let matched := matched_databases database database_info in
  if truthy database then
    if 1 <? length matched
    then (fmt database ++ "_all_versions.csv")%string
    else (fmt database ++ "_" ++ version_of (hd EmptyString matched) ++ ".csv")%string
  else "all_databases.csv".

(** The number of rows of the tables fetched for [dbs]. *)
Definition rows_fetched (ds : Dataset) (dbs : list string) : nat :=
  list_sum (map (fun db => index (fetched ds db)) dbs).

Definition is_results (e : event) : bool :=
  match e with Results _ _ => true | _ => false end.

Definition is_to_csv (e : event) : bool :=
  match e with ToCsv _ _ => true | _ => false end.

(** Every character of [s] is in [[A-Za-z0-9]]. *)
Fixpoint all_alnum (s : string) : bool :=
  match s with
  | EmptyString => true
  | String c s' => PyStr.isalnum c && all_alnum s'
  end.

(** [s] does not begin with a character of [[A-Za-z0-9]]. *)
Definition run_ends (s : string) : Prop :=
  match s with
  | EmptyString => True
  | String c _ => PyStr.isalnum c = false
  end.

(** [m] occurs in [s] after the prefix [p] as a plus sign with a maximal,
    non-empty alphanumeric run. *)
Definition adduct_at (s p m : string) : Prop :=
  exists run q,
    s = (p ++ m ++ q)%string /\ m = String "+"%char run /\
    run <> EmptyString /\ all_alnum run = true /\ run_ends q.

(** Some plus sign of [s] is followed by an alphanumeric character, after
    the prefix [p]. *)
Definition plus_alnum_at (s p : string) : Prop :=
  exists c q, s = (p ++ String "+"%char (String c q))%string /\ PyStr.isalnum c = true.

(** [m] is the first such occurrence in [s]. *)
Definition first_adduct (s m : string) : Prop :=
  exists p, adduct_at s p m /\
    forall p', plus_alnum_at s p' -> String.length p <= String.length p'.

(** No character of [s] satisfies [p]. *)
Fixpoint none_of (p : ascii -> bool) (s : string) : bool :=
  match s with
  | EmptyString => true
  | String c s' => negb (p c) && none_of p s'
  end.

(** The character [c] does not occur in [s]. *)
Definition no_char (c : ascii) (s : string) : bool :=
  none_of (fun x => Ascii.eqb x c) s.

(** [s] is not empty and holds no whitespace. *)
Definition token (s : string) : bool :=
  negb (String.eqb s EmptyString) && none_of PyStr.isspace s.

(** The descriptor string is its name, one space, its version. *)
Definition canonical (db : string) : bool :=
  two_tokens db && String.eqb db (name_of db ++ " " ++ version_of db).

(** Every column of the table has as many cells as the index is long. *)
Definition rectangular (df : DataFrame) : bool :=
  forallb (fun kv => length (snd kv) =? index df) (data df).

(** The lines of the report of lines 42-45. *)
Definition not_found_events (d : string) (database_info : list string) : list event :=
  Print ("Could not find database: " ++ d)%string
  :: Print "Available databases and versions:"
  :: map Print database_info.

(* ================================================================= *)
(** ** Sample datasets *)

Module Sample.

Definition kegg_v1 : DataFrame :=
  mkDataFrame 2 [("ion", [Str "C6H12O6+Na+"; Str "C5H5N5-H-"]);
                 ("intensity", [Num 10; Num 20])].

Definition kegg_v2 : DataFrame :=
  mkDataFrame 1 [("ion", [Str "C8H10+K"]); ("mz", [Num 7])].

Definition other : DataFrame :=
  mkDataFrame 1 [("mz", [Num 3])].

(** A service whose every dataset lists [details]. *)
Definition service (details : list string) : SMInstance :=
  mkSM (fun _ =>
    mkDataset details
      (fun name ver =>
         if String.eqb name "KEGG"
         then if String.eqb ver "v1" then kegg_v1 else kegg_v2
         else other)).

Definition two_versions : SMInstance :=
  service ["<1:KEGG:v1>"; "<2:KEGG:v2>"; "<3:HMDB:v4>"].

Definition shared_prefix : SMInstance :=
  service ["<1:KEGG:v1>"; "<2:KEGGX:v2>"].

Definition spaced_name : SMInstance :=
  service ["<1:Core Metabolome:v3>"].

Definition short_descriptor : SMInstance :=
  service ["<1:KEGG:v1>"; "<2:HMDB>"].

Definition id : string := "2022-08-05_17h28m56s".

End Sample.

(* ================================================================= *)
(** ** Runs *)

Unset Implicit Arguments.

Lemma bind_Return (A B : Type) (t : list event) (a : A) (f : A -> run B) :
  bind (mkRun t (Return a)) f = mkRun (t ++ trace (f a)) (outcome (f a)).
Proof. reflexivity. Qed.

Lemma bind_Raise (A B : Type) (t : list event) (e : exn) (f : A -> run B) :
  bind (mkRun t (Raise e)) f = mkRun t (Raise e).
Proof. reflexivity. Qed.

Lemma bind_ret (A B : Type) (a : A) (f : A -> run B) :
  bind (ret a) f = f a.
Proof. unfold ret. rewrite bind_Return. simpl. now destruct (f a). Qed.

Lemma for_each_print (l : list string) :
  for_each print l = mkRun (map Print l) (Return tt).
Proof.
  induction l as [|x l IH]; [reflexivity|].
  simpl. rewrite IH. reflexivity.
Qed.

(* ================================================================= *)
(** ** DataFrame facts *)

Section Frames.

Variables (c : string) (vs : list cell) (df : DataFrame).

Lemma has_column_lookup :
  Pd.has_column c df = match Pd.getitem c df with Some _ => true | None => false end.
Proof.
  unfold Pd.has_column, Pd.columns, Pd.getitem.
  induction (data df) as [|[k w] d IH]; [reflexivity|].
  simpl. destruct (String.eqb c k); [reflexivity|exact IH].
Qed.

Lemma index_setitem : index (Pd.setitem c vs df) = index df.
Proof. unfold Pd.setitem. now destruct (Pd.has_column c df). Qed.

Lemma getitem_setitem_same : Pd.getitem c (Pd.setitem c vs df) = Some vs.
Proof.
  unfold Pd.setitem. rewrite has_column_lookup. unfold Pd.getitem.
  induction (data df) as [|[k w] d IH]; simpl.
  - now rewrite String.eqb_refl.
  - destruct (String.eqb c k) eqn:E; simpl.
    + now rewrite E.
    + destruct (Pd.lookup c d) eqn:L; simpl in *; now rewrite E.
Qed.

Lemma getitem_setitem_other (c' : string) :
  c' <> c -> Pd.getitem c' (Pd.setitem c vs df) = Pd.getitem c' df.
Proof.
  intros N. apply String.eqb_neq in N.
  unfold Pd.setitem, Pd.getitem.
  destruct (Pd.has_column c df); simpl.
  - induction (data df) as [|[k w] d IH]; [reflexivity|]. simpl.
    destruct (String.eqb c k) eqn:E; simpl.
    + apply String.eqb_eq in E. subst k. now rewrite N.
    + now rewrite IH.
  - induction (data df) as [|[k w] d IH]; simpl.
    + now rewrite N.
    + now rewrite IH.
Qed.

Lemma column_setitem_same : Pd.column c (Pd.setitem c vs df) = vs.
Proof. unfold Pd.column. now rewrite getitem_setitem_same. Qed.

Lemma column_setitem_other (c' : string) :
  c' <> c -> Pd.column c' (Pd.setitem c vs df) = Pd.column c' df.
Proof.
  intros N. unfold Pd.column.
  now rewrite getitem_setitem_other, index_setitem.
Qed.

Lemma columns_setitem :
  Pd.columns (Pd.setitem c vs df) =
  if Pd.has_column c df then Pd.columns df else Pd.columns df ++ [c].
Proof.
  unfold Pd.setitem, Pd.columns.
  destruct (Pd.has_column c df); simpl.
  - rewrite map_map. apply map_ext. intros [k w]. simpl.
    now destruct (String.eqb c k).
  - now rewrite map_app.
Qed.

End Frames.

Lemma lookup_tabulate (f : string -> list cell) (l : list string) (c : string) :
  Pd.lookup c (map (fun k => (k, f k)) l) =
  if existsb (String.eqb c) l then Some (f c) else None.
Proof.
  induction l as [|k l IH]; [reflexivity|].
  simpl. destruct (String.eqb c k) eqn:E; simpl.
  - apply String.eqb_eq in E. now subst k.
  - exact IH.
Qed.

Lemma existsb_union_columns (c : string) (a b : list string) :
  existsb (String.eqb c) (Pd.union_columns a b) =
  existsb (String.eqb c) a || existsb (String.eqb c) b.
Proof.
  unfold Pd.union_columns. rewrite existsb_app.
  destruct (existsb (String.eqb c) a) eqn:Ea; [reflexivity|]. simpl.
  induction b as [|k b IH]; [reflexivity|]. simpl.
  destruct (String.eqb c k) eqn:E.
  - apply String.eqb_eq in E. subst k. rewrite Ea. simpl.
    now rewrite String.eqb_refl.
  - destruct (negb (existsb (String.eqb k) a)); simpl; [now rewrite E|]; exact IH.
Qed.

Lemma column_absent (c : string) (df : DataFrame) :
  Pd.has_column c df = false -> Pd.column c df = repeat NaN (index df).
Proof.
  rewrite has_column_lookup. unfold Pd.column.
  now destruct (Pd.getitem c df).
Qed.

(** A column of a concatenation is the column of the upper table followed
    by the column of the lower one, holes included. *)
Lemma column_concat (c : string) (a b : DataFrame) :
  Pd.column c (Pd.concat a b) = Pd.column c a ++ Pd.column c b.
Proof.
  unfold Pd.column at 1. unfold Pd.getitem, Pd.concat. simpl.
  rewrite (lookup_tabulate (fun k => Pd.column k a ++ Pd.column k b)).
  rewrite existsb_union_columns.
  destruct (existsb (String.eqb c) (Pd.columns a)) eqn:Ea; [reflexivity|].
  destruct (existsb (String.eqb c) (Pd.columns b)) eqn:Eb; [reflexivity|].
  simpl. rewrite repeat_app.
  now rewrite (column_absent c a Ea), (column_absent c b Eb).
Qed.

Lemma index_rename (old new : string) (df : DataFrame) :
  index (Pd.rename old new df) = index df.
Proof. reflexivity. Qed.

Lemma getitem_rename_other (old new c : string) (df : DataFrame) :
  c <> old -> c <> new -> Pd.getitem c (Pd.rename old new df) = Pd.getitem c df.
Proof.
  intros No Nn. apply String.eqb_neq in No, Nn.
  unfold Pd.getitem, Pd.rename. simpl.
  induction (data df) as [|[k w] d IH]; [reflexivity|]. simpl.
  destruct (String.eqb k old) eqn:E; simpl.
  - apply String.eqb_eq in E. subst k. now rewrite Nn, No.
  - now rewrite IH.
Qed.

Lemma columns_rename (old new : string) (df : DataFrame) :
  Pd.columns (Pd.rename old new df) =
  map (fun k => if String.eqb k old then new else k) (Pd.columns df).
Proof.
  unfold Pd.columns, Pd.rename. simpl. rewrite !map_map.
  apply map_ext. intros [k w]. simpl. now destruct (String.eqb k old).
Qed.

(* ================================================================= *)
(** ** The tag columns and the running table *)

Section Aggregate.

Variable ds : Dataset.

Lemma index_tagged (db : string) : index (tagged ds db) = index (fetched ds db).
Proof. unfold tagged, Pd.setitem_scalar. now rewrite !index_setitem. Qed.

Lemma column_tagged_Version (db : string) :
  Pd.column "Version" (tagged ds db) =
  repeat (Str (version_of db)) (index (fetched ds db)).
Proof.
  unfold tagged, Pd.setitem_scalar.
  now rewrite column_setitem_same, index_setitem.
Qed.

Lemma column_tagged_Database (db : string) :
  Pd.column "Database" (tagged ds db) =
  repeat (Str (name_of db)) (index (fetched ds db)).
Proof.
  unfold tagged, Pd.setitem_scalar.
  rewrite column_setitem_other by discriminate.
  now rewrite column_setitem_same.
Qed.

Lemma column_tagged_other (c : string) (db : string) :
  c <> "Database" -> c <> "Version" ->
  Pd.column c (tagged ds db) = Pd.column c (fetched ds db).
Proof.
  intros Nd Nv. unfold tagged, Pd.setitem_scalar.
  now rewrite !column_setitem_other.
Qed.

Lemma column_combine (c : string) (dbs : list string) (acc : DataFrame) :
  Pd.column c (combine ds dbs acc) =
  Pd.column c acc ++ flat_map (fun db => Pd.column c (tagged ds db)) dbs.
Proof.
  revert acc. induction dbs as [|db dbs IH]; intros acc; simpl.
  - now rewrite app_nil_r.
  - unfold combine in *. simpl. rewrite IH, column_concat.
    now rewrite app_assoc.
Qed.

Lemma index_combine (dbs : list string) (acc : DataFrame) :
  index (combine ds dbs acc) = index acc + rows_fetched ds dbs.
Proof.
  revert acc. unfold rows_fetched.
  induction dbs as [|db dbs IH]; intros acc; simpl.
  - lia.
  - unfold combine in *. simpl. rewrite IH. simpl.
    rewrite index_tagged. lia.
Qed.

End Aggregate.

(* ================================================================= *)
(** ** The fetch loop *)

Lemma two_tokens_split (db : string) :
  two_tokens db = true -> PyStr.split db = [name_of db; version_of db].
Proof.
  unfold two_tokens, name_of, version_of.
  destruct (PyStr.split db) as [|a [|b [|x l]]]; simpl; congruence.
Qed.

Lemma unpack2_raises (db : string) :
  two_tokens db = false -> unpack2 (PyStr.split db) = raise ValueError.
Proof.
  unfold two_tokens.
  destruct (PyStr.split db) as [|a [|b [|x l]]]; simpl; congruence.
Qed.

Section Loop.

Variables (ds : Dataset) (database version : option string).

Lemma fetch_one_run (db : string) (acc : DataFrame) :
  fetch_one ds (name_of db) (version_of db) acc =
  mkRun (fetch_events db) (Return (Pd.concat acc (tagged ds db))).
Proof. reflexivity. Qed.

Lemma fetch_loop_cons (db : string) (rest : list string) (acc : DataFrame) :
  two_tokens db = true ->
  fetch_loop ds database version (db :: rest) acc =
  if selects database version db
  then bind (fetch_one ds (name_of db) (version_of db) acc)
            (fetch_loop ds database version rest)
  else fetch_loop ds database version rest acc.
Proof.
  intros T. simpl. rewrite (two_tokens_split db T). simpl unpack2.
  rewrite bind_ret. simpl fst. simpl snd. unfold selects.
  destruct (is_none_or_eq database (name_of db) && is_none_or_eq version (version_of db)).
  - reflexivity.
  - now rewrite bind_ret.
Qed.

(** On descriptors that all split in two, the loop ends normally: it has
    fetched the selected descriptors in order and glued their tables. *)
Lemma fetch_loop_ok (database_info : list string) (acc : DataFrame) :
  forallb two_tokens database_info = true ->
  fetch_loop ds database version database_info acc =
  mkRun (flat_map fetch_events (selected database version database_info))
        (Return (combine ds (selected database version database_info) acc)).
Proof.
  revert acc. induction database_info as [|db rest IH]; intros acc W.
  - reflexivity.
  - simpl in W. apply andb_true_iff in W. destruct W as [T W].
    rewrite (fetch_loop_cons db rest acc T). unfold selected. simpl filter.
    destruct (selects database version db).
    + rewrite fetch_one_run, bind_Return, (IH _ W). reflexivity.
    + apply IH, W.
Qed.

(** One descriptor that does not split in two makes the loop raise. *)
Lemma fetch_loop_raises (database_info : list string) (acc : DataFrame) :
  forallb two_tokens database_info = false ->
  outcome (fetch_loop ds database version database_info acc) = Raise ValueError.
Proof.
  revert acc. induction database_info as [|db rest IH]; intros acc W.
  - discriminate.
  - simpl in W. destruct (two_tokens db) eqn:T; simpl in W.
    + rewrite (fetch_loop_cons db rest acc T).
      destruct (selects database version db).
      * rewrite fetch_one_run, bind_Return. simpl. apply IH, W.
      * apply IH, W.
    + simpl. now rewrite (unpack2_raises db T).
Qed.

End Loop.

Lemma selected_all (database_info : list string) :
  selected None None database_info = database_info.
Proof.
  unfold selected. induction database_info as [|db l IH]; [reflexivity|].
  simpl. now rewrite IH.
Qed.

Lemma selected_by_name (d : string) (database_info : list string) :
  selected (Some d) None database_info =
  filter (fun db => String.eqb d (name_of db)) database_info.
Proof.
  unfold selected, selects. apply filter_ext. intros db. simpl.
  now rewrite andb_true_r.
Qed.

Lemma is_results_fetch_events (dbs : list string) :
  filter is_results (flat_map fetch_events dbs) =
  map (fun db => Results (name_of db) (version_of db)) dbs.
Proof.
  induction dbs as [|db l IH]; [reflexivity|]. simpl. now rewrite IH.
Qed.

(* ================================================================= *)
(** ** The file name *)

Lemma versions_comprehension (l : list string) :
  forallb two_tokens l = true ->
  comprehension (fun db => subscript (PyStr.split db) 1) l = ret (map version_of l).
Proof.
  induction l as [|db l IH]; intros W; [reflexivity|].
  simpl in W. apply andb_true_iff in W. destruct W as [T W].
  simpl. rewrite (two_tokens_split db T). unfold subscript at 1. simpl nth_error. cbv iota.
  now rewrite bind_ret, (IH W), bind_ret.
Qed.

Lemma forallb_filter (A : Type) (p q : A -> bool) (l : list A) :
  forallb p l = true -> forallb p (filter q l) = true.
Proof.
  induction l as [|x l IH]; [reflexivity|]. simpl.
  intros W. apply andb_true_iff in W. destruct W as [Px W].
  destruct (q x); simpl; [rewrite Px|]; auto.
Qed.

(** The file name as a function of the name filter and the descriptors. *)
Lemma make_filename_run (database : option string) (database_info : list string) :
  forallb two_tokens database_info = true ->
  (truthy database = true -> matched_databases database database_info <> []) ->
  make_filename database database_info = ret (file_name database database_info).
Proof.
  intros W M. unfold make_filename, file_name.
  destruct (truthy database); [|reflexivity].
  specialize (M eq_refl).
  rewrite versions_comprehension by (apply forallb_filter, W).
  rewrite bind_ret, length_map.
  destruct (matched_databases database database_info) as [|m l]; [congruence|].
  destruct (1 <? length (m :: l)); [reflexivity|].
  simpl. unfold subscript. simpl. now rewrite bind_ret.
Qed.

(* ================================================================= *)
(** ** The shape of a whole run *)

Lemma truthy_Some (d : string) : d <> EmptyString -> truthy (Some d) = true.
Proof. intros N. simpl. apply String.eqb_neq in N. now rewrite N. Qed.

Lemma warn_versions_run (d : string) (version : option string) (matched : list string) :
  warn_versions (Some d) version matched =
  mkRun (if (1 <? length matched) && is_none version
         then warning_events d matched else [])
        (Return tt).
Proof.
  unfold warn_versions.
  destruct ((1 <? length matched) && is_none version); [|reflexivity].
  rewrite for_each_print. reflexivity.
Qed.

Section Whole.

Variables (ds : Dataset) (database version : option string).
Variable database_info : list string.
Hypothesis W : forallb two_tokens database_info = true.

Lemma fetch_derive_save_run (fn : string) :
  make_filename database database_info = ret fn ->
  fetch_derive_save ds database version database_info =
  mkRun (flat_map fetch_events (selected database version database_info)
         ++ [ToCsv fn
               (derive_columns
                  (combine ds (selected database version database_info) Pd.empty));
             Print ("Results saved to " ++ fn)%string])
        (Return
           (Some (derive_columns
                    (combine ds (selected database version database_info) Pd.empty)))).
Proof.
  intros F. unfold fetch_derive_save.
  rewrite (fetch_loop_ok ds database version database_info Pd.empty W).
  rewrite bind_Return, F, bind_ret. reflexivity.
Qed.

End Whole.

Lemma download_unfiltered (sm : SMInstance) (dataset_id : string)
    (database version : option string) :
  truthy database = false ->
  download_dataset_results sm dataset_id database version =
  fetch_derive_save (dataset sm dataset_id) database version
    (map parse_descriptor (database_details (dataset sm dataset_id))).
Proof. intros T. unfold download_dataset_results. now rewrite T. Qed.

Lemma download_filtered (sm : SMInstance) (dataset_id d : string)
    (version : option string) :
  let ds := dataset sm dataset_id in
  let database_info := map parse_descriptor (database_details ds) in
  let matched := matched_databases (Some d) database_info in
  d <> EmptyString -> matched <> [] ->
  download_dataset_results sm dataset_id (Some d) version =
  bind (warn_versions (Some d) version matched)
       (fun _ => fetch_derive_save ds (Some d) version database_info).
Proof.
  intros ds database_info matched N M. unfold download_dataset_results.
  rewrite (truthy_Some d N). fold ds. fold database_info. fold matched.
  destruct matched; [congruence|reflexivity].
Qed.

Lemma download_unmatched (sm : SMInstance) (dataset_id d : string)
    (version : option string) :
  let database_info :=
    map parse_descriptor (database_details (dataset sm dataset_id)) in
  d <> EmptyString -> matched_databases (Some d) database_info = [] ->
  download_dataset_results sm dataset_id (Some d) version =
  mkRun (Print ("Could not find database: " ++ d)%string
         :: Print "Available databases and versions:"
         :: map Print database_info)
        (Return None).
Proof.
  intros database_info N M. unfold download_dataset_results.
  rewrite (truthy_Some d N). fold database_info. rewrite M.
  rewrite for_each_print. unfold bind. simpl. now rewrite app_nil_r.
Qed.

Lemma truthy_inv (database : option string) :
  truthy database = true -> exists d, database = Some d /\ d <> EmptyString.
Proof.
  destruct database as [d|]; [|discriminate]. simpl. intros T.
  exists d. split; [reflexivity|].
  apply String.eqb_neq. now destruct (String.eqb d "").
Qed.

(** Every run that gets past the name check, on descriptors that all split
    in two: warning, fetches, one file, the table. *)
Lemma download_run (sm : SMInstance) (dataset_id : string)
    (database version : option string) :
  let ds := dataset sm dataset_id in
  let database_info := map parse_descriptor (database_details ds) in
  let sel := selected database version database_info in
  let df := derive_columns (combine ds sel Pd.empty) in
  let fn := file_name database database_info in
  forallb two_tokens database_info = true ->
  (truthy database = true -> matched_databases database database_info <> []) ->
  download_dataset_results sm dataset_id database version =
  mkRun (warning_part database version database_info
         ++ flat_map fetch_events sel
         ++ [ToCsv fn df; Print ("Results saved to " ++ fn)%string])
        (Return (Some df)).
Proof.
  intros ds database_info sel df fn W M.
  pose proof (make_filename_run database database_info W M) as F.
  pose proof (fetch_derive_save_run ds database version database_info W _ F) as S.
  destruct (truthy database) eqn:T.
  - destruct (truthy_inv database T) as [d [-> N]].
    rewrite (download_filtered sm dataset_id d version N (M eq_refl)).
    fold ds. fold database_info. rewrite warn_versions_run, bind_Return, S.
    unfold warning_part. rewrite T. reflexivity.
  - rewrite (download_unfiltered sm dataset_id database version T).
    fold ds. fold database_info. rewrite S.
    unfold warning_part. rewrite T. reflexivity.
Qed.

Lemma outcome_bind_Raise (A B : Type) (m : run A) (f : A -> run B) (e : exn) :
  outcome m = Raise e -> outcome (bind m f) = Raise e.
Proof. intros H. unfold bind. now rewrite H. Qed.

(** Past the name check, one descriptor that does not split in two makes
    the whole call raise. *)
Lemma download_raises (sm : SMInstance) (dataset_id : string)
    (database version : option string) :
  let database_info :=
    map parse_descriptor (database_details (dataset sm dataset_id)) in
  forallb two_tokens database_info = false ->
  (truthy database = true -> matched_databases database database_info <> []) ->
  outcome (download_dataset_results sm dataset_id database version) = Raise ValueError.
Proof.
  intros database_info W M.
  assert (S : outcome (fetch_derive_save (dataset sm dataset_id) database version
                         database_info) = Raise ValueError).
  { unfold fetch_derive_save. apply outcome_bind_Raise, fetch_loop_raises, W. }
  destruct (truthy database) eqn:T.
  - destruct (truthy_inv database T) as [d [-> N]].
    rewrite (download_filtered sm dataset_id d version N (M eq_refl)).
    rewrite warn_versions_run, bind_Return. exact S.
  - rewrite (download_unfiltered sm dataset_id database version T). exact S.
Qed.

Lemma no_results_in_prints (l : list string) : filter is_results (map Print l) = [].
Proof. induction l; simpl; auto. Qed.

Lemma no_to_csv_in_prints (l : list string) : filter is_to_csv (map Print l) = [].
Proof. induction l; simpl; auto. Qed.

Lemma no_results_in_warning (database version : option string) (l : list string) :
  filter is_results (warning_part database version l) = [].
Proof.
  unfold warning_part.
  destruct (truthy database && (1 <? length (matched_databases database l))
            && is_none version); [|reflexivity].
  simpl. apply no_results_in_prints.
Qed.

Lemma no_to_csv_in_warning (database version : option string) (l : list string) :
  filter is_to_csv (warning_part database version l) = [].
Proof.
  unfold warning_part.
  destruct (truthy database && (1 <? length (matched_databases database l))
            && is_none version); [|reflexivity].
  simpl. apply no_to_csv_in_prints.
Qed.

Lemma no_to_csv_in_fetches (dbs : list string) :
  filter is_to_csv (flat_map fetch_events dbs) = [].
Proof. induction dbs; simpl; auto. Qed.

(* ================================================================= *)
(** ** The column deriver *)

Lemma has_column_setitem (c c' : string) (vs : list cell) (df : DataFrame) :
  Pd.has_column c (Pd.setitem c' vs df) = Pd.has_column c df || String.eqb c c'.
Proof.
  unfold Pd.has_column at 1. rewrite columns_setitem.
  destruct (Pd.has_column c' df) eqn:H.
  - fold (Pd.has_column c df).
    destruct (String.eqb c c') eqn:E; [|now rewrite orb_false_r].
    apply String.eqb_eq in E. subst c'. now rewrite H.
  - rewrite existsb_app. simpl. now rewrite orb_false_r.
Qed.

Lemma has_column_rename_other (old new c : string) (df : DataFrame) :
  c <> old -> c <> new ->
  Pd.has_column c (Pd.rename old new df) = Pd.has_column c df.
Proof.
  intros No Nn. rewrite !has_column_lookup.
  now rewrite getitem_rename_other.
Qed.

Lemma has_column_rename_old (old new : string) (df : DataFrame) :
  old <> new -> Pd.has_column old (Pd.rename old new df) = false.
Proof.
  intros N. unfold Pd.has_column. rewrite columns_rename.
  induction (Pd.columns df) as [|k l IH]; [reflexivity|]. simpl.
  rewrite IH, orb_false_r.
  destruct (String.eqb k old) eqn:E.
  - now apply String.eqb_neq.
  - rewrite String.eqb_sym. exact E.
Qed.

Lemma has_column_rename_new (old new : string) (df : DataFrame) :
  Pd.has_column new (Pd.rename old new df) =
  Pd.has_column old df || Pd.has_column new df.
Proof.
  unfold Pd.has_column. rewrite columns_rename.
  induction (Pd.columns df) as [|k l IH]; [reflexivity|]. simpl.
  rewrite IH. rewrite (String.eqb_sym old k).
  destruct (String.eqb k old) eqn:E; simpl.
  - now rewrite String.eqb_refl.
  - destruct (String.eqb new k); simpl; [now rewrite orb_true_r|reflexivity].
Qed.

Lemma column_rename_other (old new c : string) (df : DataFrame) :
  c <> old -> c <> new -> Pd.column c (Pd.rename old new df) = Pd.column c df.
Proof.
  intros No Nn. unfold Pd.column. now rewrite getitem_rename_other.
Qed.

Lemma replace_absent (c : string) (vs : list cell) (d : list (string * list cell)) :
  existsb (String.eqb c) (map fst d) = false ->
  map (fun kv => if String.eqb c (fst kv) then (fst kv, vs) else kv) d = d.
Proof.
  induction d as [|[k w] d IH]; [reflexivity|]. simpl.
  destruct (String.eqb c k); simpl; [discriminate|].
  intros H. now rewrite IH.
Qed.

Lemma setitem_twice (c : string) (vs : list cell) (df : DataFrame) :
  Pd.setitem c vs (Pd.setitem c vs df) = Pd.setitem c vs df.
Proof.
  unfold Pd.setitem at 1.
  rewrite has_column_setitem, String.eqb_refl, orb_true_r.
  unfold Pd.setitem. destruct (Pd.has_column c df) eqn:H; simpl; f_equal.
  - rewrite map_map. apply map_ext. intros [k w]. simpl.
    destruct (String.eqb c k) eqn:E; simpl; now rewrite E.
  - rewrite map_app. simpl. rewrite String.eqb_refl.
    now rewrite (replace_absent c vs (data df) H).
Qed.

Lemma rename_setitem (old new c : string) (vs : list cell) (df : DataFrame) :
  c <> old -> c <> new ->
  Pd.rename old new (Pd.setitem c vs df) = Pd.setitem c vs (Pd.rename old new df).
Proof.
  intros No Nn. unfold Pd.setitem.
  rewrite (has_column_rename_other old new c df No Nn).
  apply String.eqb_neq in No, Nn.
  destruct (Pd.has_column c df); unfold Pd.rename; simpl; f_equal.
  - rewrite !map_map. apply map_ext. intros [k w]. simpl.
    destruct (String.eqb c k) eqn:E; simpl.
    + apply String.eqb_eq in E. subst k. rewrite No. simpl.
      now rewrite String.eqb_refl.
    + destruct (String.eqb k old); simpl; [now rewrite Nn|now rewrite E].
  - rewrite map_app. simpl. now rewrite No.
Qed.

Section Deriver.

Variable df : DataFrame.

Lemma derive_adduct_twice : derive_adduct (derive_adduct df) = derive_adduct df.
Proof.
  unfold derive_adduct at 2 3. destruct (Pd.has_column "ion" df) eqn:H.
  - unfold derive_adduct. rewrite has_column_setitem, H. simpl.
    rewrite column_setitem_other by discriminate. apply setitem_twice.
  - unfold derive_adduct. now rewrite H.
Qed.

Lemma rename_intensity_twice :
  rename_intensity (rename_intensity df) = rename_intensity df.
Proof.
  unfold rename_intensity at 2 3. destruct (Pd.has_column "intensity" df) eqn:H.
  - unfold rename_intensity.
    now rewrite has_column_rename_old by discriminate.
  - unfold rename_intensity. now rewrite H.
Qed.

(** The two steps can run in either order. *)
Lemma derive_steps_commute :
  rename_intensity (derive_adduct df) = derive_adduct (rename_intensity df).
Proof.
  unfold rename_intensity, derive_adduct.
  destruct (Pd.has_column "ion" df) eqn:Hi;
    destruct (Pd.has_column "intensity" df) eqn:Hn;
    rewrite ?has_column_setitem, ?Hn, ?Hi; cbv iota;
    rewrite ?has_column_rename_other, ?Hn, ?Hi by discriminate;
    try reflexivity.
  simpl. rewrite column_rename_other by discriminate.
  apply rename_setitem; discriminate.
Qed.

Lemma index_derive_columns : index (derive_columns df) = index df.
Proof.
  unfold derive_columns, rename_intensity, derive_adduct.
  destruct (Pd.has_column "ion" df);
    destruct (Pd.has_column "intensity" _); simpl;
    now rewrite ?index_setitem.
Qed.

Lemma getitem_derive_columns (c : string) :
  c <> "Adduct" -> c <> "intensity" -> c <> "maxIntensity" ->
  Pd.getitem c (derive_columns df) = Pd.getitem c df.
Proof.
  intros Na Ni Nm. unfold derive_columns, rename_intensity.
  assert (A : Pd.getitem c (derive_adduct df) = Pd.getitem c df).
  { unfold derive_adduct. destruct (Pd.has_column "ion" df); [|reflexivity].
    now apply getitem_setitem_other. }
  destruct (Pd.has_column "intensity" (derive_adduct df)); [|exact A].
  now rewrite getitem_rename_other.
Qed.

(** Columns the deriver does not name come through untouched. *)
Lemma column_derive_columns (c : string) :
  c <> "Adduct" -> c <> "intensity" -> c <> "maxIntensity" ->
  Pd.column c (derive_columns df) = Pd.column c df.
Proof.
  intros Na Ni Nm. unfold Pd.column.
  now rewrite getitem_derive_columns, index_derive_columns.
Qed.

Lemma getitem_Adduct :
  Pd.has_column "ion" df = true ->
  Pd.getitem "Adduct" (derive_columns df) =
  Some (map Pd.str_extract (Pd.column "ion" df)).
Proof.
  intros H. unfold derive_columns, rename_intensity.
  assert (A : Pd.getitem "Adduct" (derive_adduct df) =
              Some (map Pd.str_extract (Pd.column "ion" df))).
  { unfold derive_adduct. rewrite H. apply getitem_setitem_same. }
  destruct (Pd.has_column "intensity" (derive_adduct df)); [|exact A].
  now rewrite getitem_rename_other by discriminate.
Qed.

End Deriver.

(* ================================================================= *)
(** ** The regular expression *)

Lemma search_adduct_eq (s : string) :
  PyStr.search_adduct s =
  match PyStr.match_adduct s with
  | Some m => Some m
  | None => match s with
            | String _ s' => PyStr.search_adduct s'
            | EmptyString => None
            end
  end.
Proof. destruct s; reflexivity. Qed.

Lemma alnum_run_split (s : string) :
  exists q, s = (PyStr.alnum_run s ++ q)%string /\ run_ends q /\
            all_alnum (PyStr.alnum_run s) = true.
Proof.
  induction s as [|c s IH]; cbn [PyStr.alnum_run].
  - exists EmptyString. repeat split.
  - destruct (PyStr.isalnum c) eqn:E.
    + destruct IH as [q [H1 [H2 H3]]]. exists q.
      cbn [all_alnum append]. rewrite E, H3, <- H1. repeat split. exact H2.
    + exists (String c s). repeat split. exact E.
Qed.

Lemma alnum_run_maximal (run q : string) :
  all_alnum run = true -> run_ends q -> PyStr.alnum_run (run ++ q) = run.
Proof.
  induction run as [|c run IH]; cbn [all_alnum append]; intros A E.
  - destruct q as [|c q]; [reflexivity|]. cbn [PyStr.alnum_run].
    simpl in E. now rewrite E.
  - apply andb_true_iff in A. destruct A as [Ac A].
    cbn [PyStr.alnum_run]. now rewrite Ac, IH.
Qed.

Lemma adduct_at_plus_alnum (s p m : string) :
  adduct_at s p m -> plus_alnum_at s p.
Proof.
  intros [run [q [Es [Em [Nr [A _]]]]]].
  destruct run as [|c run]; [congruence|].
  cbn [all_alnum] in A. apply andb_true_iff in A. destruct A as [Ac _].
  exists c, (run ++ q)%string. subst m. split; [exact Es|exact Ac].
Qed.

Lemma match_adduct_Some (s m : string) :
  PyStr.match_adduct s = Some m -> adduct_at s EmptyString m.
Proof.
  destruct s as [|a s]; [discriminate|]. unfold PyStr.match_adduct.
  destruct (Ascii.eqb a "+") eqn:E; [|discriminate].
  apply Ascii.eqb_eq in E. subst a.
  destruct (alnum_run_split s) as [q [H1 [H2 H3]]].
  destruct (PyStr.alnum_run s) as [|c run] eqn:R; [discriminate|].
  intros [= <-]. exists (String c run), q.
  cbn [append] in *. repeat split; try assumption; congruence.
Qed.

Lemma match_adduct_None (s : string) :
  PyStr.match_adduct s = None -> ~ plus_alnum_at s EmptyString.
Proof.
  intros H [c [q [E A]]]. cbn [append] in E. subst s.
  unfold PyStr.match_adduct in H. rewrite Ascii.eqb_refl in H.
  cbn [PyStr.alnum_run] in H. rewrite A in H. discriminate.
Qed.

Lemma plus_alnum_at_tail (a : ascii) (s p : string) :
  plus_alnum_at (String a s) (String a p) <-> plus_alnum_at s p.
Proof.
  split; intros [c [q [E A]]]; exists c, q; split; try exact A;
    cbn [append] in *; congruence.
Qed.

(** A hit of the search is the first occurrence. *)
Lemma search_adduct_sound (s m : string) :
  PyStr.search_adduct s = Some m -> first_adduct s m.
Proof.
  induction s as [|a s IH]; rewrite search_adduct_eq; [discriminate|].
  destruct (PyStr.match_adduct (String a s)) as [m0|] eqn:E.
  - intros [= <-]. exists EmptyString. split.
    + now apply match_adduct_Some.
    + intros p' _. simpl. lia.
  - intros H. destruct (IH H) as [p [[run [q [Es R]]] F]].
    exists (String a p). split.
    + exists run, q. split; [cbn [append]; now rewrite Es|exact R].
    + intros p' P. destruct p' as [|a' p'].
      * now apply match_adduct_None in E.
      * assert (a' = a) as ->.
        { destruct P as [c [q' [E' _]]]. cbn [append] in E'. congruence. }
        apply plus_alnum_at_tail in P. apply F in P. simpl. lia.
Qed.

(** A miss of the search means no plus sign is followed by an
    alphanumeric character. *)
Lemma search_adduct_none (s : string) :
  PyStr.search_adduct s = None -> forall p, ~ plus_alnum_at s p.
Proof.
  induction s as [|a s IH]; rewrite search_adduct_eq.
  - intros _ p [c [q [E _]]]. destruct p; discriminate.
  - destruct (PyStr.match_adduct (String a s)) eqn:E; [discriminate|].
    intros H p P. destruct p as [|a' p].
    + now apply match_adduct_None in E.
    + assert (a' = a) as ->.
      { destruct P as [c [q' [E' _]]]. cbn [append] in E'. congruence. }
      apply plus_alnum_at_tail in P. exact (IH H p P).
Qed.

Lemma append_same_length (p1 p2 x y : string) :
  String.length p1 = String.length p2 ->
  (p1 ++ x)%string = (p2 ++ y)%string -> x = y.
Proof.
  revert p2. induction p1 as [|a p1 IH]; intros [|b p2] L E;
    simpl in L; try discriminate.
  - exact E.
  - cbn [append] in E. injection E as _ E. apply (IH p2); [lia|exact E].
Qed.

(** The first occurrence is unique. *)
Lemma first_adduct_unique (s m1 m2 : string) :
  first_adduct s m1 -> first_adduct s m2 -> m1 = m2.
Proof.
  intros [p1 [A1 F1]] [p2 [A2 F2]].
  pose proof (F1 p2 (adduct_at_plus_alnum s p2 m2 A2)) as L12.
  pose proof (F2 p1 (adduct_at_plus_alnum s p1 m1 A1)) as L21.
  destruct A1 as [r1 [q1 [E1 [M1 [_ [R1 Q1]]]]]].
  destruct A2 as [r2 [q2 [E2 [M2 [_ [R2 Q2]]]]]].
  rewrite E1 in E2. apply append_same_length in E2; [|lia].
  subst m1 m2. cbn [append] in E2. injection E2 as E2.
  rewrite <- (alnum_run_maximal r1 q1 R1 Q1), <- (alnum_run_maximal r2 q2 R2 Q2).
  now rewrite E2.
Qed.

(** The search finds exactly the first occurrence. *)
Lemma search_adduct_spec (s m : string) :
  PyStr.search_adduct s = Some m <-> first_adduct s m.
Proof.
  split; [apply search_adduct_sound|]. intros F.
  destruct (PyStr.search_adduct s) as [m'|] eqn:E.
  - f_equal. apply (first_adduct_unique s); [now apply search_adduct_sound|exact F].
  - destruct F as [p [A _]].
    now apply adduct_at_plus_alnum, (search_adduct_none s E) in A.
Qed.

Lemma length_blocks (A : Type) (f : string -> A) (g : string -> nat) (l : list string) :
  length (flat_map (fun db => repeat (f db) (g db)) l) = list_sum (map g l).
Proof.
  induction l as [|db l IH]; [reflexivity|].
  simpl. now rewrite length_app, repeat_length, IH.
Qed.

Lemma column_combine_empty (ds : Dataset) (c : string) (dbs : list string) :
  Pd.column c (combine ds dbs Pd.empty) =
  flat_map (fun db => Pd.column c (tagged ds db)) dbs.
Proof. now rewrite column_combine. Qed.

Lemma index_combine_empty (ds : Dataset) (dbs : list string) :
  index (combine ds dbs Pd.empty) = rows_fetched ds dbs.
Proof. now rewrite index_combine. Qed.

Lemma to_csv_of_run (w f : list event) (fn : string) (df : DataFrame) (line : string) :
  filter is_to_csv w = [] -> filter is_to_csv f = [] ->
  filter is_to_csv (w ++ f ++ [ToCsv fn df; Print line]) = [ToCsv fn df].
Proof. intros Hw Hf. now rewrite !filter_app, Hw, Hf. Qed.

Lemma results_of_run (w : list event) (dbs : list string) (fn : string)
    (df : DataFrame) (line : string) :
  filter is_results w = [] ->
  filter is_results (w ++ flat_map fetch_events dbs ++ [ToCsv fn df; Print line]) =
  map (fun db => Results (name_of db) (version_of db)) dbs.
Proof.
  intros Hw. rewrite !filter_app, Hw, is_results_fetch_events. simpl.
  now rewrite app_nil_r.
Qed.

Lemma warning_part_shown (d : string) (l : list string) :
  d <> EmptyString -> 2 <= length (matched_databases (Some d) l) ->
  warning_part (Some d) None l = warning_events d (matched_databases (Some d) l).
Proof.
  intros N L. unfold warning_part. rewrite (truthy_Some d N).
  apply Nat.ltb_lt in L. now rewrite L.
Qed.

Lemma file_name_all_versions (d : string) (l : list string) :
  d <> EmptyString -> 2 <= length (matched_databases (Some d) l) ->
  file_name (Some d) l = (d ++ "_all_versions.csv")%string.
Proof.
  intros N L. unfold file_name. rewrite (truthy_Some d N).
  apply Nat.ltb_lt in L. now rewrite L.
Qed.

Lemma file_name_single (d m : string) (l : list string) :
  d <> EmptyString -> matched_databases (Some d) l = [m] ->
  file_name (Some d) l = (d ++ "_" ++ version_of m ++ ".csv")%string.
Proof.
  intros N M. unfold file_name. now rewrite (truthy_Some d N), M.
Qed.

Lemma matched_nonempty (d : string) (l : list string) :
  2 <= length (matched_databases (Some d) l) -> matched_databases (Some d) l <> [].
Proof. destruct (matched_databases (Some d) l); simpl; [lia|discriminate]. Qed.

(* ================================================================= *)
(** ** The database resolver *)

(** C1, as stated, at a concrete dataset: the filter KEGG matches the
    descriptors of KEGG and of KEGGX by prefix, the warning lists both, yet
    only KEGG is requested and only its two rows are in the table. *)
Lemma C1_prefix_match_left_out :
  let r := download_dataset_results Sample.shared_prefix Sample.id (Some "KEGG") None in
  matched_databases (Some "KEGG") (descriptors_of Sample.shared_prefix Sample.id)
    = ["KEGG v1"; "KEGGX v2"]
  /\ filter is_results (trace r) = [Results "KEGG" "v1"]
  /\ exists df, outcome r = Return (Some df)
                /\ index df = 2
                /\ Pd.column "Database" df = [Str "KEGG"; Str "KEGG"].
Proof.
  cbv zeta. split; [reflexivity|]. split; [reflexivity|].
  eexists. split; [reflexivity|]. split; reflexivity.
Qed.

(** C1, amended: with a non-empty name filter that matches several
    descriptors by prefix, no version filter, and descriptors that all
    split into two tokens, the run prints the warning with every matched
    descriptor string, then requests, in descriptor order, exactly the
    descriptors whose parsed name equals the filter, and writes and returns
    the table built from their results.  Where prefix match and name
    equality agree on the descriptors, those are all the matched ones. *)
Theorem C1_warning_then_fetch_by_name (sm : SMInstance) (dataset_id d : string) :
  d <> EmptyString ->
  2 <= length (matched_databases (Some d) (descriptors_of sm dataset_id)) ->
  forallb two_tokens (descriptors_of sm dataset_id) = true ->
  exists df,
    download_dataset_results sm dataset_id (Some d) None =
    mkRun (warning_events d (matched_databases (Some d) (descriptors_of sm dataset_id))
           ++ flat_map fetch_events
                (filter (fun db => String.eqb d (name_of db)) (descriptors_of sm dataset_id))
           ++ [ToCsv (d ++ "_all_versions.csv") df;
               Print ("Results saved to " ++ d ++ "_all_versions.csv")%string])
          (Return (Some df))
    /\ df = derive_columns
              (combine (dataset sm dataset_id)
                 (filter (fun db => String.eqb d (name_of db)) (descriptors_of sm dataset_id))
                 Pd.empty)
    /\ (forall c,
          Pd.column c (combine (dataset sm dataset_id)
                         (filter (fun db => String.eqb d (name_of db))
                                 (descriptors_of sm dataset_id))
                         Pd.empty) =
          flat_map (fun db => Pd.column c (tagged (dataset sm dataset_id) db))
            (filter (fun db => String.eqb d (name_of db)) (descriptors_of sm dataset_id)))
    /\ ((forall db, In db (descriptors_of sm dataset_id) ->
                    prefix_matches d db = String.eqb d (name_of db)) ->
        filter (fun db => String.eqb d (name_of db)) (descriptors_of sm dataset_id) =
        matched_databases (Some d) (descriptors_of sm dataset_id)).
Proof.
  intros N L W. eexists. split; [|split; [reflexivity|split]].
  - rewrite (download_run sm dataset_id (Some d) None W
               (fun _ => matched_nonempty d _ L)).
    fold (descriptors_of sm dataset_id).
    rewrite (warning_part_shown d _ N L), (file_name_all_versions d _ N L).
    now rewrite selected_by_name.
  - intros c. apply column_combine_empty.
  - intros A. unfold matched_databases. simpl fmt.
    apply filter_ext_in. intros db I. symmetry. apply (A db I).
Qed.

Lemma C1_witness :
  exists df,
    download_dataset_results Sample.two_versions Sample.id (Some "KEGG") None =
    mkRun (warning_events "KEGG" ["KEGG v1"; "KEGG v2"]
           ++ flat_map fetch_events ["KEGG v1"; "KEGG v2"]
           ++ [ToCsv "KEGG_all_versions.csv" df;
               Print "Results saved to KEGG_all_versions.csv"])
          (Return (Some df)).
Proof.
  destruct (C1_warning_then_fetch_by_name Sample.two_versions Sample.id "KEGG")
    as [df [R _]].
  - discriminate.
  - vm_compute. lia.
  - reflexivity.
  - exists df. exact R.
Defined.

(** C2, as stated, at a concrete dataset: with no name filter and the
    version filter v4, the rows of the two KEGG descriptors are not
    requested and not in the table. *)
Lemma C2_version_filter_leaves_out :
  let r := download_dataset_results Sample.two_versions Sample.id None (Some "v4") in
  descriptors_of Sample.two_versions Sample.id = ["KEGG v1"; "KEGG v2"; "HMDB v4"]
  /\ filter is_results (trace r) = [Results "HMDB" "v4"]
  /\ exists df, outcome r = Return (Some df)
                /\ In (ToCsv "all_databases.csv" df) (trace r)
                /\ index df = 1
                /\ Pd.column "Database" df = [Str "HMDB"].
Proof.
  cbv zeta. split; [reflexivity|]. split; [reflexivity|].
  eexists. split; [reflexivity|]. split; [|split; reflexivity].
  simpl. right. right. left. reflexivity.
Qed.

(** C2, amended: with [database] None and descriptors that all split into
    two tokens, the file is all_databases.csv and the table is built from
    the results of every descriptor whose parsed version equals the version
    argument; with [version] None as well, from those of every descriptor. *)
Theorem C2_no_name_filter (sm : SMInstance) (dataset_id : string)
    (version : option string) :
  forallb two_tokens (descriptors_of sm dataset_id) = true ->
  exists df,
    download_dataset_results sm dataset_id None version =
    mkRun (flat_map fetch_events
             (filter (fun db => is_none_or_eq version (version_of db))
                     (descriptors_of sm dataset_id))
           ++ [ToCsv "all_databases.csv" df; Print "Results saved to all_databases.csv"])
          (Return (Some df))
    /\ df = derive_columns
              (combine (dataset sm dataset_id)
                 (filter (fun db => is_none_or_eq version (version_of db))
                         (descriptors_of sm dataset_id))
                 Pd.empty)
    /\ (forall c,
          Pd.column c (combine (dataset sm dataset_id)
                         (filter (fun db => is_none_or_eq version (version_of db))
                                 (descriptors_of sm dataset_id))
                         Pd.empty) =
          flat_map (fun db => Pd.column c (tagged (dataset sm dataset_id) db))
            (filter (fun db => is_none_or_eq version (version_of db))
                    (descriptors_of sm dataset_id)))
    /\ index df =
       rows_fetched (dataset sm dataset_id)
         (filter (fun db => is_none_or_eq version (version_of db))
                 (descriptors_of sm dataset_id))
    /\ (version = None ->
        filter (fun db => is_none_or_eq version (version_of db))
               (descriptors_of sm dataset_id) = descriptors_of sm dataset_id).
Proof.
  intros W. eexists. split; [|split; [reflexivity|split; [|split]]].
  - rewrite (download_run sm dataset_id None version W);
      [|discriminate]. reflexivity.
  - intros c. apply column_combine_empty.
  - now rewrite index_derive_columns, index_combine_empty.
  - intros ->. apply (selected_all (descriptors_of sm dataset_id)).
Qed.

Lemma C2_witness :
  exists df,
    download_dataset_results Sample.two_versions Sample.id None None =
    mkRun (flat_map fetch_events ["KEGG v1"; "KEGG v2"; "HMDB v4"]
           ++ [ToCsv "all_databases.csv" df; Print "Results saved to all_databases.csv"])
          (Return (Some df))
    /\ index df = 4.
Proof.
  destruct (C2_no_name_filter Sample.two_versions Sample.id None)
    as [df [R [_ [_ [I _]]]]].
  - reflexivity.
  - exists df. split; [exact R|exact I].
Defined.

(** C3: when a non-empty [database] argument is a prefix of no descriptor
    string, the run prints the two header lines and every descriptor
    string, returns None, and neither requests results nor writes a file. *)
Theorem C3_unmatched_database (sm : SMInstance) (dataset_id d : string)
    (version : option string) :
  d <> EmptyString ->
  matched_databases (Some d) (descriptors_of sm dataset_id) = [] ->
  trace (download_dataset_results sm dataset_id (Some d) version) =
    Print ("Could not find database: " ++ d)%string
    :: Print "Available databases and versions:"
    :: map Print (descriptors_of sm dataset_id)
  /\ outcome (download_dataset_results sm dataset_id (Some d) version) = Return None
  /\ filter is_results (trace (download_dataset_results sm dataset_id (Some d) version)) = []
  /\ filter is_to_csv (trace (download_dataset_results sm dataset_id (Some d) version)) = [].
Proof.
  intros N M. rewrite (download_unmatched sm dataset_id d version N M).
  simpl. fold (descriptors_of sm dataset_id).
  now rewrite no_results_in_prints, no_to_csv_in_prints.
Qed.

Lemma C3_witness :
  trace (download_dataset_results Sample.two_versions Sample.id (Some "LipidMaps") None) =
    [Print "Could not find database: LipidMaps";
     Print "Available databases and versions:";
     Print "KEGG v1"; Print "KEGG v2"; Print "HMDB v4"]
  /\ outcome (download_dataset_results Sample.two_versions Sample.id (Some "LipidMaps") None)
     = Return None.
Proof.
  destruct (C3_unmatched_database Sample.two_versions Sample.id "LipidMaps" None)
    as [T [O _]].
  - discriminate.
  - reflexivity.
  - split; [exact T|exact O].
Defined.

(* ================================================================= *)
(** ** The file name and the row count *)

(** C4, as stated, at two concrete datasets.  With the descriptors of KEGG
    and KEGGX the filter KEGG matches both and the file is
    KEGG_all_versions.csv, but the table has the 2 rows fetched for KEGG
    while the tables of the two matched descriptors hold 3 rows together.
    With two KEGG descriptors and a third descriptor of three tokens the
    filter matches two descriptors, yet the call raises ValueError after
    both requests and writes no file. *)
Lemma C4_matched_rows_not_all_counted :
  length (matched_databases (Some "KEGG") (descriptors_of Sample.shared_prefix Sample.id))
    = 2
  /\ rows_fetched (dataset Sample.shared_prefix Sample.id)
       (matched_databases (Some "KEGG") (descriptors_of Sample.shared_prefix Sample.id))
     = 3
  /\ (exists df,
        outcome (download_dataset_results Sample.shared_prefix Sample.id (Some "KEGG") None)
          = Return (Some df)
        /\ filter is_to_csv
             (trace (download_dataset_results Sample.shared_prefix Sample.id
                       (Some "KEGG") None))
           = [ToCsv "KEGG_all_versions.csv" df]
        /\ index df = 2)
  /\ matched_databases (Some "KEGG")
       (descriptors_of
          (Sample.service ["<1:KEGG:v1>"; "<2:KEGG:v2>"; "<3:Core Metabolome:v3>"])
          Sample.id)
     = ["KEGG v1"; "KEGG v2"]
  /\ outcome (download_dataset_results
                (Sample.service ["<1:KEGG:v1>"; "<2:KEGG:v2>"; "<3:Core Metabolome:v3>"])
                Sample.id (Some "KEGG") None)
     = Raise ValueError
  /\ filter is_to_csv
       (trace (download_dataset_results
                 (Sample.service ["<1:KEGG:v1>"; "<2:KEGG:v2>"; "<3:Core Metabolome:v3>"])
                 Sample.id (Some "KEGG") None))
     = [].
Proof.
  split; [reflexivity|]. split; [reflexivity|]. split.
  - eexists. split; [reflexivity|]. split; reflexivity.
  - split; [reflexivity|]. split; reflexivity.
Qed.

(** C4, amended: with a non-empty name filter that matches two or more
    descriptors by prefix, no version filter, and descriptors that all split
    into two tokens, the one file written is [{database}_all_versions.csv],
    and the table has as many rows as the result tables of the descriptors
    whose parsed name equals the filter have together: these are the tables
    the loop fetches, one per requested descriptor.  Where prefix match and
    name equality agree on the descriptors, that is one table per matched
    descriptor. *)
Theorem C4_all_versions_rows (sm : SMInstance) (dataset_id d : string) :
  d <> EmptyString ->
  2 <= length (matched_databases (Some d) (descriptors_of sm dataset_id)) ->
  forallb two_tokens (descriptors_of sm dataset_id) = true ->
  exists df,
    outcome (download_dataset_results sm dataset_id (Some d) None) = Return (Some df)
    /\ filter is_to_csv (trace (download_dataset_results sm dataset_id (Some d) None))
       = [ToCsv (d ++ "_all_versions.csv") df]
    /\ filter is_results (trace (download_dataset_results sm dataset_id (Some d) None))
       = map (fun db => Results (name_of db) (version_of db))
             (selected (Some d) None (descriptors_of sm dataset_id))
    /\ index df =
       rows_fetched (dataset sm dataset_id)
         (selected (Some d) None (descriptors_of sm dataset_id))
    /\ length (Pd.column "Database" df) =
       rows_fetched (dataset sm dataset_id)
         (selected (Some d) None (descriptors_of sm dataset_id))
    /\ ((forall db, In db (descriptors_of sm dataset_id) ->
                    prefix_matches d db = String.eqb d (name_of db)) ->
        index df =
        rows_fetched (dataset sm dataset_id)
          (matched_databases (Some d) (descriptors_of sm dataset_id))).
Proof.
  intros N L W.
  pose proof (download_run sm dataset_id (Some d) None W
                (fun _ => matched_nonempty d _ L)) as R.
  cbv zeta in R. fold (descriptors_of sm dataset_id) in R.
  rewrite (file_name_all_versions d _ N L) in R. rewrite R. clear R.
  eexists. split; [reflexivity|]. cbn [trace outcome].
  split; [|split; [|split; [|split]]].
  - apply to_csv_of_run; [apply no_to_csv_in_warning|apply no_to_csv_in_fetches].
  - apply results_of_run, no_results_in_warning.
  - now rewrite index_derive_columns, index_combine_empty.
  - rewrite column_derive_columns by discriminate.
    rewrite column_combine_empty.
    rewrite (flat_map_ext _ _ (column_tagged_Database (dataset sm dataset_id))).
    apply length_blocks.
  - intros A. rewrite index_derive_columns, index_combine_empty. f_equal.
    rewrite selected_by_name. unfold matched_databases. simpl fmt.
    apply filter_ext_in. intros db I. symmetry. apply (A db I).
Qed.

Lemma C4_witness :
  exists df,
    outcome (download_dataset_results Sample.two_versions Sample.id (Some "KEGG") None)
      = Return (Some df)
    /\ filter is_to_csv
         (trace (download_dataset_results Sample.two_versions Sample.id (Some "KEGG") None))
       = [ToCsv "KEGG_all_versions.csv" df]
    /\ index df = 3.
Proof.
  destruct (C4_all_versions_rows Sample.two_versions Sample.id "KEGG")
    as [df [O [F [_ [I _]]]]].
  - discriminate.
  - vm_compute. lia.
  - reflexivity.
  - exists df. split; [exact O|]. split; [exact F|exact I].
Defined.

(** C5, as stated, at a concrete dataset: the filter KEGG matches exactly
    one descriptor, but the other descriptor has three tokens, so the call
    raises ValueError after the request for KEGG and writes no file under
    any name. *)
Lemma C5_no_file_when_loop_raises :
  matched_databases (Some "KEGG")
    (descriptors_of (Sample.service ["<1:KEGG:v1>"; "<2:Core Metabolome:v3>"]) Sample.id)
    = ["KEGG v1"]
  /\ download_dataset_results
       (Sample.service ["<1:KEGG:v1>"; "<2:Core Metabolome:v3>"]) Sample.id
       (Some "KEGG") None
     = mkRun [Print "Processing database: KEGG, version: v1"; Results "KEGG" "v1"]
             (Raise ValueError)
  /\ filter is_to_csv
       (trace (download_dataset_results
                 (Sample.service ["<1:KEGG:v1>"; "<2:Core Metabolome:v3>"]) Sample.id
                 (Some "KEGG") None))
     = [].
Proof. split; [reflexivity|]. split; reflexivity. Qed.

(** C5, amended: with a non-empty name filter that matches exactly one
    descriptor and descriptors that all split into two tokens, the one file
    written is [{database}_{version}.csv], with the parsed version of the
    matched descriptor, whatever the [version] argument is. *)
Theorem C5_single_version_file (sm : SMInstance) (dataset_id d m : string)
    (version : option string) :
  d <> EmptyString ->
  matched_databases (Some d) (descriptors_of sm dataset_id) = [m] ->
  forallb two_tokens (descriptors_of sm dataset_id) = true ->
  exists df,
    outcome (download_dataset_results sm dataset_id (Some d) version) = Return (Some df)
    /\ filter is_to_csv (trace (download_dataset_results sm dataset_id (Some d) version))
       = [ToCsv (d ++ "_" ++ version_of m ++ ".csv") df]
    /\ In (Print ("Results saved to " ++ d ++ "_" ++ version_of m ++ ".csv")%string)
          (trace (download_dataset_results sm dataset_id (Some d) version)).
Proof.
  intros N M W.
  assert (M' : matched_databases (Some d) (descriptors_of sm dataset_id) <> [])
    by (rewrite M; discriminate).
  pose proof (download_run sm dataset_id (Some d) version W (fun _ => M')) as R.
  cbv zeta in R. fold (descriptors_of sm dataset_id) in R.
  rewrite (file_name_single d m _ N M) in R. rewrite R. clear R.
  eexists. split; [reflexivity|]. cbn [trace outcome]. split.
  - apply to_csv_of_run; [apply no_to_csv_in_warning|apply no_to_csv_in_fetches].
  - rewrite !in_app_iff. right. right. simpl. auto.
Qed.

Lemma C5_witness :
  exists df,
    outcome (download_dataset_results Sample.two_versions Sample.id (Some "HMDB") None)
      = Return (Some df)
    /\ filter is_to_csv
         (trace (download_dataset_results Sample.two_versions Sample.id (Some "HMDB") None))
       = [ToCsv "HMDB_v4.csv" df].
Proof.
  destruct (C5_single_version_file Sample.two_versions Sample.id "HMDB" "HMDB v4" None)
    as [df [O [F _]]].
  - discriminate.
  - reflexivity.
  - reflexivity.
  - exists df. split; [exact O|exact F].
Defined.

(* ================================================================= *)
(** ** The result aggregator *)

(** C6: on descriptors that all split into two tokens the loop ends
    normally with a combined table in which, for every selected
    descriptor, each of its rows has the parsed name in [Database] and the
    parsed version in [Version]; every column of the combined table is the
    columns of the fetched tables one after the other, descriptors in their
    original order and rows in the order fetched; the deriver keeps the two
    tag columns. *)
Theorem C6_rows_tagged_in_order (ds : Dataset) (database version : option string)
    (database_info : list string) :
  forallb two_tokens database_info = true ->
  exists combined,
    fetch_loop ds database version database_info Pd.empty =
    mkRun (flat_map fetch_events (filter (selects database version) database_info))
          (Return combined)
    /\ (forall db,
          Pd.column "Database" (tagged ds db)
            = repeat (Str (name_of db)) (index (fetched ds db))
          /\ Pd.column "Version" (tagged ds db)
            = repeat (Str (version_of db)) (index (fetched ds db)))
    /\ Pd.column "Database" combined =
       flat_map (fun db => repeat (Str (name_of db)) (index (fetched ds db)))
         (filter (selects database version) database_info)
    /\ Pd.column "Version" combined =
       flat_map (fun db => repeat (Str (version_of db)) (index (fetched ds db)))
         (filter (selects database version) database_info)
    /\ (forall c, c <> "Database" -> c <> "Version" ->
          Pd.column c combined =
          flat_map (fun db => Pd.column c (fetched ds db))
            (filter (selects database version) database_info))
    /\ index combined =
       rows_fetched ds (filter (selects database version) database_info)
    /\ Pd.column "Database" (derive_columns combined) = Pd.column "Database" combined
    /\ Pd.column "Version" (derive_columns combined) = Pd.column "Version" combined.
Proof.
  intros W. eexists. split.
  { apply (fetch_loop_ok ds database version database_info Pd.empty W). }
  fold (selected database version database_info).
  split; [|split; [|split; [|split; [|split; [|split]]]]].
  - intros db. split; [apply column_tagged_Database|apply column_tagged_Version].
  - rewrite column_combine_empty. apply flat_map_ext, column_tagged_Database.
  - rewrite column_combine_empty. apply flat_map_ext, column_tagged_Version.
  - intros c Nd Nv. rewrite column_combine_empty. apply flat_map_ext.
    intros db. now apply column_tagged_other.
  - apply index_combine_empty.
  - apply column_derive_columns; discriminate.
  - apply column_derive_columns; discriminate.
Qed.

Lemma C6_witness :
  exists combined,
    outcome (fetch_loop (dataset Sample.two_versions Sample.id) None None
               (descriptors_of Sample.two_versions Sample.id) Pd.empty)
      = Return combined
    /\ Pd.column "Database" combined
       = [Str "KEGG"; Str "KEGG"; Str "KEGG"; Str "HMDB"]
    /\ Pd.column "Version" combined = [Str "v1"; Str "v1"; Str "v2"; Str "v4"]
    /\ Pd.column "mz" combined = [NaN; NaN; Num 7; Num 3].
Proof.
  destruct (C6_rows_tagged_in_order (dataset Sample.two_versions Sample.id) None None
              (descriptors_of Sample.two_versions Sample.id))
    as [combined [R [_ [D [V [C _]]]]]].
  - reflexivity.
  - exists combined. split; [now rewrite R|]. split; [exact D|]. split; [exact V|].
    apply (C "mz"); discriminate.
Defined.

(* ================================================================= *)
(** ** The column deriver, claims *)

Lemma str_extract_Str (s m : string) :
  Pd.str_extract (Str s) = Str m <-> PyStr.search_adduct s = Some m.
Proof.
  simpl. destruct (PyStr.search_adduct s); split; congruence.
Qed.

Lemma str_extract_NaN (s : string) :
  Pd.str_extract (Str s) = NaN <-> PyStr.search_adduct s = None.
Proof.
  simpl. destruct (PyStr.search_adduct s); split; congruence.
Qed.

(** C7: when the table has a column [ion], the deriver leaves a column
    [Adduct] whose value in every row is extracted from the [ion] value of
    that row: for text, the first occurrence of a plus sign followed by a
    maximal non-empty run of [[A-Za-z0-9]], and [NaN] exactly when no plus
    sign is followed by such a character; [NaN] for a value that is not
    text.  The value X+H gives +H. *)
Theorem C7_adduct_from_ion (df : DataFrame) :
  Pd.has_column "ion" df = true ->
  Pd.getitem "Adduct" (derive_columns df)
    = Some (map Pd.str_extract (Pd.column "ion" df))
  /\ (forall i, nth i (Pd.column "Adduct" (derive_columns df)) NaN
                = Pd.str_extract (nth i (Pd.column "ion" df) NaN))
  /\ (forall s m, Pd.str_extract (Str s) = Str m <-> first_adduct s m)
  /\ (forall s, Pd.str_extract (Str s) = NaN <-> forall p, ~ plus_alnum_at s p)
  /\ Pd.str_extract (Str "X+H") = Str "+H"
  /\ Pd.str_extract NaN = NaN
  /\ (forall n, Pd.str_extract (Num n) = NaN).
Proof.
  intros H. pose proof (getitem_Adduct df H) as G.
  split; [exact G|]. split; [|split; [|split; [|repeat split]]].
  - intros i. unfold Pd.column at 1. rewrite G.
    apply (map_nth Pd.str_extract (Pd.column "ion" df) NaN i).
  - intros s m. rewrite str_extract_Str. apply search_adduct_spec.
  - intros s. rewrite str_extract_NaN. split.
    + apply search_adduct_none.
    + intros No. destruct (PyStr.search_adduct s) as [m|] eqn:E; [|reflexivity].
      apply search_adduct_sound in E. destruct E as [p [A _]].
      now apply adduct_at_plus_alnum, No in A.
Qed.

Lemma C7_witness :
  Pd.getitem "Adduct" (derive_columns Sample.kegg_v1) = Some [Str "+Na"; NaN].
Proof.
  destruct (C7_adduct_from_ion Sample.kegg_v1) as [G _].
  - reflexivity.
  - exact G.
Defined.

Lemma has_column_rename_intensity (c : string) (df : DataFrame) :
  c <> "intensity" -> c <> "maxIntensity" ->
  Pd.has_column c (rename_intensity df) = Pd.has_column c df.
Proof.
  intros Ni Nm. unfold rename_intensity.
  destruct (Pd.has_column "intensity" df); [|reflexivity].
  now apply has_column_rename_other.
Qed.

Lemma has_column_derive_adduct (c : string) (df : DataFrame) :
  c <> "Adduct" -> Pd.has_column c (derive_adduct df) = Pd.has_column c df.
Proof.
  intros Na. unfold derive_adduct.
  destruct (Pd.has_column "ion" df); [|reflexivity].
  rewrite has_column_setitem. apply String.eqb_neq in Na.
  now rewrite Na, orb_false_r.
Qed.

Lemma no_intensity_left (df : DataFrame) :
  Pd.has_column "intensity" (rename_intensity df) = false.
Proof.
  unfold rename_intensity. destruct (Pd.has_column "intensity" df) eqn:H.
  - now apply has_column_rename_old.
  - exact H.
Qed.

Lemma maxIntensity_present (df : DataFrame) :
  Pd.has_column "maxIntensity" (rename_intensity df) =
  Pd.has_column "intensity" df || Pd.has_column "maxIntensity" df.
Proof.
  unfold rename_intensity. destruct (Pd.has_column "intensity" df) eqn:H.
  - now rewrite has_column_rename_new, H.
  - reflexivity.
Qed.

Lemma derive_columns_twice (df : DataFrame) :
  derive_columns (derive_columns df) = derive_columns df.
Proof.
  unfold derive_columns.
  rewrite (derive_steps_commute (rename_intensity (derive_adduct df))).
  rewrite rename_intensity_twice, (derive_steps_commute df).
  apply derive_adduct_twice.
Qed.

(** C8: running the deriver on its own output changes nothing; after one
    run and after two there is no column [intensity], and [maxIntensity] is
    there whenever [intensity] or [maxIntensity] was; the column [ion]
    stays, and the second run leaves [Adduct] as the first made it; the
    two steps commute and each is idempotent by itself. *)
Theorem C8_deriver_idempotent (df : DataFrame) :
  derive_columns (derive_columns df) = derive_columns df
  /\ Pd.has_column "intensity" (derive_columns df) = false
  /\ Pd.has_column "intensity" (derive_columns (derive_columns df)) = false
  /\ Pd.has_column "maxIntensity" (derive_columns df)
     = Pd.has_column "intensity" df || Pd.has_column "maxIntensity" df
  /\ Pd.has_column "maxIntensity" (derive_columns (derive_columns df))
     = Pd.has_column "intensity" df || Pd.has_column "maxIntensity" df
  /\ Pd.has_column "ion" (derive_columns df) = Pd.has_column "ion" df
  /\ Pd.getitem "Adduct" (derive_columns (derive_columns df))
     = Pd.getitem "Adduct" (derive_columns df)
  /\ rename_intensity (derive_adduct df) = derive_adduct (rename_intensity df)
  /\ derive_adduct (derive_adduct df) = derive_adduct df
  /\ rename_intensity (rename_intensity df) = rename_intensity df.
Proof.
  assert (M : Pd.has_column "maxIntensity" (derive_columns df)
              = Pd.has_column "intensity" df || Pd.has_column "maxIntensity" df).
  { unfold derive_columns.
    now rewrite maxIntensity_present, !has_column_derive_adduct by discriminate. }
  rewrite !derive_columns_twice.
  split; [reflexivity|]. split; [apply no_intensity_left|].
  split; [apply no_intensity_left|]. split; [exact M|]. split; [exact M|].
  split.
  { unfold derive_columns.
    now rewrite has_column_rename_intensity, has_column_derive_adduct by discriminate. }
  split; [reflexivity|]. split; [apply derive_steps_commute|].
  split; [apply derive_adduct_twice|apply rename_intensity_twice].
Qed.

(* ================================================================= *)
(** ** Descriptors that do not split in two, and empty selections *)

(** C9, as stated, at a concrete dataset: the one descriptor parses to a
    string of three tokens, and with a name filter that matches nothing the
    call returns None instead of raising. *)
Lemma C9_returns_despite_three_tokens :
  descriptors_of Sample.spaced_name Sample.id = ["Core Metabolome v3"]
  /\ PyStr.split "Core Metabolome v3" = ["Core"; "Metabolome"; "v3"]
  /\ download_dataset_results Sample.spaced_name Sample.id (Some "HMDB") None =
     mkRun [Print "Could not find database: HMDB";
            Print "Available databases and versions:";
            Print "Core Metabolome v3"]
           (Return None).
Proof. repeat split. Qed.

(** C9, amended: the loop raises ValueError as soon as the descriptors do
    not all split into exactly two tokens, and ends normally when they do.
    The call as a whole raises in the same case whenever it reaches the
    loop, that is unless a non-empty name filter matches no descriptor; in
    that one case it returns None before the loop, whatever the descriptors
    look like.  When the loop is reached and every descriptor splits in
    two, the call returns a table. *)
Theorem C9_two_tokens_or_raise (sm : SMInstance) (dataset_id : string)
    (database version : option string) :
  (forall acc,
      forallb two_tokens (descriptors_of sm dataset_id) = false ->
      outcome (fetch_loop (dataset sm dataset_id) database version
                 (descriptors_of sm dataset_id) acc) = Raise ValueError)
  /\ (forall acc,
      forallb two_tokens (descriptors_of sm dataset_id) = true ->
      exists df,
        outcome (fetch_loop (dataset sm dataset_id) database version
                   (descriptors_of sm dataset_id) acc) = Return df)
  /\ (truthy database = true ->
      matched_databases database (descriptors_of sm dataset_id) = [] ->
      outcome (download_dataset_results sm dataset_id database version) = Return None)
  /\ ((truthy database = true ->
       matched_databases database (descriptors_of sm dataset_id) <> []) ->
      forallb two_tokens (descriptors_of sm dataset_id) = false ->
      outcome (download_dataset_results sm dataset_id database version)
        = Raise ValueError)
  /\ ((truthy database = true ->
       matched_databases database (descriptors_of sm dataset_id) <> []) ->
      forallb two_tokens (descriptors_of sm dataset_id) = true ->
      exists df,
        outcome (download_dataset_results sm dataset_id database version)
          = Return (Some df)).
Proof.
  split; [|split; [|split; [|split]]].
  - intros acc W. now apply fetch_loop_raises.
  - intros acc W. eexists.
    now rewrite (fetch_loop_ok _ database version _ acc W).
  - intros T M. destruct (truthy_inv database T) as [d [-> N]].
    now rewrite (download_unmatched sm dataset_id d version N M).
  - intros M W. now apply download_raises.
  - intros M W. eexists.
    now rewrite (download_run sm dataset_id database version W M).
Qed.

Lemma C9_witness :
  outcome (download_dataset_results Sample.spaced_name Sample.id None None)
    = Raise ValueError
  /\ outcome (download_dataset_results Sample.short_descriptor Sample.id (Some "KEGG") None)
    = Raise ValueError
  /\ exists df,
       outcome (download_dataset_results Sample.two_versions Sample.id None None)
         = Return (Some df).
Proof.
  split; [|split].
  - apply (C9_two_tokens_or_raise Sample.spaced_name Sample.id None None).
    + discriminate.
    + reflexivity.
  - apply (C9_two_tokens_or_raise Sample.short_descriptor Sample.id (Some "KEGG") None).
    + intros _. discriminate.
    + reflexivity.
  - apply (C9_two_tokens_or_raise Sample.two_versions Sample.id None None).
    + discriminate.
    + reflexivity.
Defined.

(** C10, as stated, at a concrete dataset: the filter KEGG is a prefix of a
    descriptor string and the version v9 is the version of no descriptor, so
    the test of the loop holds for no descriptor; but the second descriptor
    has three tokens, and the call raises ValueError: it writes no file and
    returns no table. *)
Lemma C10_no_file_when_loop_raises :
  matched_databases (Some "KEGG")
    (descriptors_of (Sample.service ["<1:KEGG:v1>"; "<2:Core Metabolome:v3>"]) Sample.id)
    = ["KEGG v1"]
  /\ selected (Some "KEGG") (Some "v9")
       (descriptors_of (Sample.service ["<1:KEGG:v1>"; "<2:Core Metabolome:v3>"]) Sample.id)
     = []
  /\ download_dataset_results
       (Sample.service ["<1:KEGG:v1>"; "<2:Core Metabolome:v3>"]) Sample.id
       (Some "KEGG") (Some "v9")
     = mkRun [] (Raise ValueError).
Proof. split; [reflexivity|]. split; reflexivity. Qed.

(** C10, amended: when the [database] argument is a prefix of some
    descriptor string, every descriptor splits into two tokens and the test
    of the loop holds for none of them, the call requests nothing, writes the
    table without rows or columns under the file name lines 75-82 compute,
    and returns that table, not None. *)
Theorem C10_empty_table_written (sm : SMInstance) (dataset_id d : string)
    (version : option string) :
  matched_databases (Some d) (descriptors_of sm dataset_id) <> [] ->
  forallb two_tokens (descriptors_of sm dataset_id) = true ->
  selected (Some d) version (descriptors_of sm dataset_id) = [] ->
  make_filename (Some d) (descriptors_of sm dataset_id)
    = ret (file_name (Some d) (descriptors_of sm dataset_id))
  /\ outcome (download_dataset_results sm dataset_id (Some d) version)
     = Return (Some Pd.empty)
  /\ filter is_to_csv (trace (download_dataset_results sm dataset_id (Some d) version))
     = [ToCsv (file_name (Some d) (descriptors_of sm dataset_id)) Pd.empty]
  /\ filter is_results (trace (download_dataset_results sm dataset_id (Some d) version))
     = []
  /\ index Pd.empty = 0
  /\ Pd.columns Pd.empty = [].
Proof.
  intros M W S.
  split; [apply (make_filename_run _ _ W (fun _ => M))|].
  pose proof (download_run sm dataset_id (Some d) version W (fun _ => M)) as R.
  cbv zeta in R. fold (descriptors_of sm dataset_id) in R.
  rewrite S in R. rewrite R. clear R. cbn [trace outcome].
  change (derive_columns (combine (dataset sm dataset_id) [] Pd.empty)) with Pd.empty.
  split; [reflexivity|]. split; [|split; [|split; reflexivity]].
  - apply to_csv_of_run; [apply no_to_csv_in_warning|reflexivity].
  - rewrite (results_of_run _ [] _ _ _ (no_results_in_warning _ _ _)). reflexivity.
Qed.

Lemma C10_witness :
  outcome (download_dataset_results Sample.two_versions Sample.id (Some "KEGG") (Some "v9"))
    = Return (Some Pd.empty)
  /\ filter is_to_csv
       (trace (download_dataset_results Sample.two_versions Sample.id
                 (Some "KEGG") (Some "v9")))
     = [ToCsv "KEGG_all_versions.csv" Pd.empty].
Proof.
  destruct (C10_empty_table_written Sample.two_versions Sample.id "KEGG" (Some "v9"))
    as [_ [O [F _]]].
  - discriminate.
  - reflexivity.
  - reflexivity.
  - split; [exact O|exact F].
Defined.

Lemma C10_witness_prefix_only :
  outcome (download_dataset_results Sample.two_versions Sample.id (Some "HM") None)
    = Return (Some Pd.empty)
  /\ filter is_to_csv
       (trace (download_dataset_results Sample.two_versions Sample.id (Some "HM") None))
     = [ToCsv "HM_v4.csv" Pd.empty].
Proof. split; reflexivity. Qed.


(* ================================================================= *)
(** ** Parsing a descriptor *)

Lemma split_on_no_sep (c : ascii) (s : string) :
  no_char c s = true -> PyStr.split_on c s = [s].
Proof.
  induction s as [|x s IH]; [reflexivity|]. unfold no_char. cbn [none_of].
  intros H. apply andb_true_iff in H. destruct H as [Hx Hs].
  cbn [PyStr.split_on]. apply negb_true_iff in Hx. rewrite Hx.
  now rewrite (IH Hs).
Qed.

Lemma split_on_field (c : ascii) (a b : string) :
  no_char c a = true ->
  PyStr.split_on c (a ++ String c b) = a :: PyStr.split_on c b.
Proof.
  induction a as [|x a IH]; cbn [append PyStr.split_on].
  - now rewrite Ascii.eqb_refl.
  - unfold no_char. cbn [none_of]. intros H.
    apply andb_true_iff in H. destruct H as [Hx Ha].
    apply negb_true_iff in Hx. rewrite Hx. now rewrite (IH Ha).
Qed.

Lemma split_on_nonempty (c : ascii) (s : string) :
  exists w ws, PyStr.split_on c s = w :: ws.
Proof.
  induction s as [|x s [w [ws IH]]]; cbn [PyStr.split_on].
  - now exists EmptyString, [].
  - destruct (Ascii.eqb x c); [now exists EmptyString, (PyStr.split_on c s)|].
    rewrite IH. now exists (String x w), ws.
Qed.

Lemma rstrip_no_char (c : ascii) (s : string) :
  no_char c s = true -> PyStr.rstrip c s = s.
Proof.
  induction s as [|x s IH]; [reflexivity|]. unfold no_char. cbn [none_of].
  intros H. apply andb_true_iff in H. destruct H as [Hx Hs].
  apply negb_true_iff in Hx. cbn [PyStr.rstrip]. rewrite (IH Hs).
  destruct s; [now rewrite Hx|reflexivity].
Qed.

Lemma lstrip_no_char (c : ascii) (s : string) :
  no_char c s = true -> PyStr.lstrip c s = s.
Proof.
  destruct s as [|x s]; [reflexivity|]. unfold no_char. cbn [none_of].
  intros H. apply andb_true_iff in H. destruct H as [Hx _].
  apply negb_true_iff in Hx. cbn [PyStr.lstrip]. now rewrite Hx.
Qed.

Lemma strip_no_char (c : ascii) (s : string) :
  no_char c s = true -> PyStr.strip c s = s.
Proof.
  intros H. unfold PyStr.strip. now rewrite (lstrip_no_char c s H), rstrip_no_char.
Qed.

Lemma rstrip_trailing (c : ascii) (s : string) :
  PyStr.rstrip c (s ++ String c EmptyString) = PyStr.rstrip c s.
Proof.
  induction s as [|x s IH]; cbn [append PyStr.rstrip].
  - now rewrite Ascii.eqb_refl.
  - now rewrite IH.
Qed.

Lemma lstrip_leading (c : ascii) (s : string) :
  PyStr.lstrip c (String c s) = PyStr.lstrip c s.
Proof. cbn [PyStr.lstrip]. now rewrite Ascii.eqb_refl. Qed.

Lemma lstrip_app_first (c : ascii) (s t : string) :
  s <> EmptyString -> no_char c s = true ->
  PyStr.lstrip c (s ++ t) = (s ++ t)%string.
Proof.
  destruct s as [|x s]; [congruence|]. intros _. unfold no_char. cbn [none_of].
  intros H. apply andb_true_iff in H. destruct H as [Hx _].
  apply negb_true_iff in Hx. cbn [append PyStr.lstrip]. now rewrite Hx.
Qed.

(** With at least three fields, the second and third are kept, stripped of
    the bracket on both sides; what follows a third colon plays no part. *)
Lemma parse_descriptor_fields (a n rest : string) :
  no_char ":" a = true -> no_char ":" n = true ->
  parse_descriptor (a ++ String ":" (n ++ String ":" rest)) =
  (PyStr.strip ">" n ++ " "
   ++ PyStr.strip ">" (hd EmptyString (PyStr.split_on ":" rest)))%string.
Proof.
  intros Ha Hn. unfold parse_descriptor.
  rewrite (split_on_field ":" a _ Ha), (split_on_field ":" n _ Hn).
  destruct (split_on_nonempty ":" rest) as [w [ws E]]. rewrite E.
  reflexivity.
Qed.

(* ================================================================= *)
(** ** Tokens *)

Lemma token_cons (c : ascii) (s : string) :
  token (String c s) = negb (PyStr.isspace c) && none_of PyStr.isspace s.
Proof. reflexivity. Qed.

Lemma token_tail (c c' : ascii) (s : string) :
  token (String c (String c' s)) = true -> token (String c' s) = true.
Proof.
  rewrite !token_cons. cbn [none_of]. intros H.
  apply andb_true_iff in H. now destruct H as [_ H].
Qed.

Lemma split_one_token (v : string) : token v = true -> PyStr.split v = [v].
Proof.
  induction v as [|c v IH]; [discriminate|]. intros T.
  pose proof T as T'. rewrite token_cons in T'.
  apply andb_true_iff in T'. destruct T' as [Hc Hv]. apply negb_true_iff in Hc.
  cbn [PyStr.split]. rewrite Hc. destruct v as [|c' v]; [reflexivity|].
  pose proof (token_tail c c' v T) as Tv. rewrite (IH Tv).
  rewrite token_cons in Tv. apply andb_true_iff in Tv. destruct Tv as [Hc' _].
  apply negb_true_iff in Hc'. now rewrite Hc'.
Qed.

Lemma split_leading_space (c : ascii) (s : string) :
  PyStr.isspace c = true -> PyStr.split (String c s) = PyStr.split s.
Proof. intros H. cbn [PyStr.split]. now rewrite H. Qed.

Lemma split_first_token (n rest : string) (c : ascii) :
  token n = true -> PyStr.isspace c = true ->
  PyStr.split (n ++ String c rest) = n :: PyStr.split rest.
Proof.
  induction n as [|x n IH]; [discriminate|]. intros T Hc.
  pose proof T as T'. rewrite token_cons in T'.
  apply andb_true_iff in T'. destruct T' as [Hx Hn]. apply negb_true_iff in Hx.
  cbn [append PyStr.split]. rewrite Hx. destruct n as [|y n].
  - cbn [append]. rewrite Hc. now rewrite (split_leading_space c rest Hc).
  - pose proof (token_tail x y n T) as Tn. rewrite (IH Tn Hc).
    rewrite token_cons in Tn. apply andb_true_iff in Tn. destruct Tn as [Hy _].
    apply negb_true_iff in Hy. cbn [append]. now rewrite Hy.
Qed.

Lemma split_name_version (n v : string) :
  token n = true -> token v = true ->
  PyStr.split (n ++ " " ++ v) = [n; v].
Proof.
  intros Tn Tv. change (n ++ " " ++ v)%string with (n ++ String " " v)%string.
  rewrite (split_first_token n v " " Tn eq_refl). now rewrite (split_one_token v Tv).
Qed.

(** What [split] returns are tokens. *)
Lemma split_gives_tokens (s : string) : forallb token (PyStr.split s) = true.
Proof.
  induction s as [|c s IH]; [reflexivity|]. cbn [PyStr.split].
  destruct (PyStr.isspace c) eqn:Hc; [exact IH|].
  destruct s as [|c' s]; [cbn; now rewrite Hc|].
  destruct (PyStr.isspace c') eqn:Hc'.
  - cbn [forallb]. rewrite IH, token_cons, Hc. reflexivity.
  - destruct (PyStr.split (String c' s)) as [|w ws].
    + cbn. now rewrite Hc.
    + cbn [forallb] in *. apply andb_true_iff in IH. destruct IH as [Tw Tws].
      rewrite Tws, token_cons, Hc. cbn [negb andb].
      destruct w as [|x w]; [discriminate|].
      rewrite token_cons in Tw. apply andb_true_iff in Tw. destruct Tw as [Hx Hw].
      cbn [none_of]. now rewrite Hx, Hw.
Qed.

Lemma name_of_token (db : string) : two_tokens db = true -> token (name_of db) = true.
Proof.
  intros T. pose proof (split_gives_tokens db) as F.
  rewrite (two_tokens_split db T) in F. cbn [forallb] in F.
  apply andb_true_iff in F. now destruct F.
Qed.

Lemma version_of_token (db : string) :
  two_tokens db = true -> token (version_of db) = true.
Proof.
  intros T. pose proof (split_gives_tokens db) as F.
  rewrite (two_tokens_split db T) in F. cbn [forallb] in F.
  apply andb_true_iff in F. destruct F as [_ F].
  apply andb_true_iff in F. now destruct F.
Qed.

Lemma none_of_app (p : ascii -> bool) (s t : string) :
  none_of p (s ++ t) = none_of p s && none_of p t.
Proof.
  induction s as [|c s IH]; [reflexivity|]. cbn [append none_of].
  now rewrite IH, andb_assoc.
Qed.

Lemma forallb_false_in (A : Type) (p : A -> bool) (x : A) (l : list A) :
  In x l -> p x = false -> forallb p l = false.
Proof.
  intros I P. destruct (forallb p l) eqn:F; [|reflexivity].
  rewrite forallb_forall in F. rewrite (F x I) in P. discriminate.
Qed.

Lemma selects_token (d : string) (version : option string) (db : string) :
  two_tokens db = true -> token d = false -> selects (Some d) version db = false.
Proof.
  intros T Nd. unfold selects. cbn [is_none_or_eq].
  destruct (String.eqb d (name_of db)) eqn:E; [|reflexivity].
  apply String.eqb_eq in E. subst d. now rewrite (name_of_token db T) in Nd.
Qed.

Lemma selected_token (d : string) (version : option string) (l : list string) :
  forallb two_tokens l = true -> token d = false -> selected (Some d) version l = [].
Proof.
  intros W Nd. unfold selected. induction l as [|db l IH]; [reflexivity|].
  cbn [forallb] in W. apply andb_true_iff in W. destruct W as [T W].
  cbn [filter]. now rewrite (selects_token d version db T Nd), (IH W).
Qed.

(** X1: a descriptor with three colon-separated fields parses to its second
    and third field, each stripped of the closing bracket on both sides and
    joined by one space; fields after the third change nothing. *)
Theorem X1_parse_second_and_third_field (a n v : string) :
  no_char ":" a = true -> no_char ":" n = true -> no_char ":" v = true ->
  parse_descriptor (a ++ ":" ++ n ++ ":" ++ v)
    = (PyStr.strip ">" n ++ " " ++ PyStr.strip ">" v)%string
  /\ forall t,
       parse_descriptor (a ++ ":" ++ n ++ ":" ++ v ++ ":" ++ t)
         = (PyStr.strip ">" n ++ " " ++ PyStr.strip ">" v)%string.
Proof.
  intros Ha Hn Hv. split.
  - change (a ++ ":" ++ n ++ ":" ++ v)%string
      with (a ++ String ":" (n ++ String ":" v))%string.
    rewrite (parse_descriptor_fields a n v Ha Hn).
    now rewrite (split_on_no_sep ":" v Hv).
  - intros t.
    change (a ++ ":" ++ n ++ ":" ++ v ++ ":" ++ t)%string
      with (a ++ String ":" (n ++ String ":" (v ++ String ":" t)))%string.
    rewrite (parse_descriptor_fields a n _ Ha Hn).
    now rewrite (split_on_field ":" v t Hv).
Qed.

Lemma X1_witness :
  parse_descriptor "<12:>HMDB>:v4>>" = "HMDB v4"
  /\ parse_descriptor "<12:>HMDB>:v4>>:public:2021" = "HMDB v4".
Proof.
  destruct (X1_parse_second_and_third_field "<12" ">HMDB>" "v4>>") as [P Q];
    try reflexivity.
  split; [exact P|exact (Q "public:2021")].
Defined.

(** X2: a descriptor whose text holds no colon parses to the empty string,
    and a call that gets past the name check with such a descriptor in the
    dataset raises ValueError. *)
Theorem X2_descriptor_without_colon (sm : SMInstance) (dataset_id s : string)
    (database version : option string) :
  In s (database_details (dataset sm dataset_id)) ->
  no_char ":" s = true ->
  (truthy database = true ->
   matched_databases database (descriptors_of sm dataset_id) <> []) ->
  parse_descriptor s = EmptyString
  /\ outcome (download_dataset_results sm dataset_id database version)
     = Raise ValueError.
Proof.
  intros I Hs M.
  assert (P : parse_descriptor s = EmptyString).
  { unfold parse_descriptor. now rewrite (split_on_no_sep ":" s Hs). }
  split; [exact P|]. apply download_raises; [|exact M].
  apply (forallb_false_in _ two_tokens (parse_descriptor s)).
  - apply in_map, I.
  - now rewrite P.
Qed.

Lemma X2_witness :
  parse_descriptor "KEGG v1" = EmptyString
  /\ outcome (download_dataset_results (Sample.service ["<1:HMDB:v4>"; "KEGG v1"])
                Sample.id None None)
     = Raise ValueError.
Proof.
  apply (X2_descriptor_without_colon (Sample.service ["<1:HMDB:v4>"; "KEGG v1"])
           Sample.id "KEGG v1" None None).
  - simpl. auto.
  - reflexivity.
  - discriminate.
Defined.

(** X3: a descriptor of the form <id:name:version>, where name and version
    are non-empty and hold no whitespace, colon or closing bracket, parses to
    name, one space, version; that string splits into exactly these two
    tokens. *)
Theorem X3_bracketed_descriptor (i n v : string) :
  no_char ":" i = true ->
  token n = true -> no_char ":" n = true -> no_char ">" n = true ->
  token v = true -> no_char ":" v = true -> no_char ">" v = true ->
  parse_descriptor ("<" ++ i ++ ":" ++ n ++ ":" ++ v ++ ">") = (n ++ " " ++ v)%string
  /\ PyStr.split (parse_descriptor ("<" ++ i ++ ":" ++ n ++ ":" ++ v ++ ">")) = [n; v]
  /\ canonical (parse_descriptor ("<" ++ i ++ ":" ++ n ++ ":" ++ v ++ ">")) = true.
Proof.
  intros Hi Tn Cn Bn Tv Cv Bv.
  assert (P : parse_descriptor ("<" ++ i ++ ":" ++ n ++ ":" ++ v ++ ">")
              = (n ++ " " ++ v)%string).
  { change ("<" ++ i ++ ":" ++ n ++ ":" ++ v ++ ">")%string
      with (String "<" i ++ String ":" (n ++ String ":" (v ++ ">")))%string.
    rewrite parse_descriptor_fields; [|exact Hi|exact Cn].
    rewrite split_on_no_sep.
    2:{ unfold no_char in *. now rewrite none_of_app, Cv. }
    cbn [hd]. rewrite (strip_no_char ">" n Bn). unfold PyStr.strip.
    rewrite lstrip_app_first; [|now destruct v|exact Bv].
    now rewrite rstrip_trailing, (rstrip_no_char ">" v Bv). }
  pose proof (split_name_version n v Tn Tv) as S.
  rewrite P. split; [reflexivity|]. split; [exact S|].
  unfold canonical, two_tokens, name_of, version_of. rewrite S. cbn [length nth].
  now rewrite String.eqb_refl.
Qed.

Lemma X3_witness :
  parse_descriptor "<12:HMDB:v4>" = "HMDB v4"
  /\ PyStr.split (parse_descriptor "<12:HMDB:v4>") = ["HMDB"; "v4"].
Proof.
  destruct (X3_bracketed_descriptor "12" "HMDB" "v4") as [P [S _]];
    try reflexivity.
  split; [exact P|exact S].
Defined.

(* ================================================================= *)
(** ** Every way a call can end *)

Lemma bind_raise_run (A B : Type) (m : run A) (f : A -> run B) (e : exn) :
  outcome m = Raise e -> bind m f = mkRun (trace m) (Raise e).
Proof. intros H. unfold bind. now rewrite H. Qed.

Lemma no_to_csv_in_loop (ds : Dataset) (database version : option string)
    (l : list string) (acc : DataFrame) :
  filter is_to_csv (trace (fetch_loop ds database version l acc)) = [].
Proof.
  revert acc. induction l as [|db l IH]; intros acc; [reflexivity|].
  destruct (two_tokens db) eqn:T.
  - rewrite (fetch_loop_cons ds database version db l acc T).
    destruct (selects database version db); [|apply IH].
    rewrite fetch_one_run, bind_Return. cbn [trace].
    rewrite filter_app. now rewrite IH.
  - simpl. now rewrite (unpack2_raises db T).
Qed.

Lemma download_raises_trace (sm : SMInstance) (dataset_id : string)
    (database version : option string) :
  forallb two_tokens (descriptors_of sm dataset_id) = false ->
  (truthy database = true ->
   matched_databases database (descriptors_of sm dataset_id) <> []) ->
  download_dataset_results sm dataset_id database version =
  mkRun (warning_part database version (descriptors_of sm dataset_id)
         ++ trace (fetch_loop (dataset sm dataset_id) database version
                     (descriptors_of sm dataset_id) Pd.empty))
        (Raise ValueError).
Proof.
  intros W M.
  assert (S : fetch_derive_save (dataset sm dataset_id) database version
                (descriptors_of sm dataset_id) =
              mkRun (trace (fetch_loop (dataset sm dataset_id) database version
                              (descriptors_of sm dataset_id) Pd.empty))
                    (Raise ValueError)).
  { unfold fetch_derive_save. apply bind_raise_run, fetch_loop_raises, W. }
  destruct (truthy database) eqn:T.
  - destruct (truthy_inv database T) as [d [-> N]].
    rewrite (download_filtered sm dataset_id d version N (M eq_refl)).
    fold (descriptors_of sm dataset_id).
    rewrite warn_versions_run, bind_Return, S.
    unfold warning_part. rewrite T. reflexivity.
  - rewrite (download_unfiltered sm dataset_id database version T).
    fold (descriptors_of sm dataset_id). rewrite S.
    unfold warning_part. rewrite T. reflexivity.
Qed.

(** A call ends in one of three ways. *)
Lemma download_cases (sm : SMInstance) (dataset_id : string)
    (database version : option string) :
  (exists d, database = Some d /\ d <> EmptyString
     /\ matched_databases (Some d) (descriptors_of sm dataset_id) = []
     /\ download_dataset_results sm dataset_id database version =
        mkRun (not_found_events d (descriptors_of sm dataset_id)) (Return None))
  \/ (forallb two_tokens (descriptors_of sm dataset_id) = true
      /\ download_dataset_results sm dataset_id database version =
         mkRun (warning_part database version (descriptors_of sm dataset_id)
                ++ flat_map fetch_events
                     (selected database version (descriptors_of sm dataset_id))
                ++ [ToCsv (file_name database (descriptors_of sm dataset_id))
                      (derive_columns
                         (combine (dataset sm dataset_id)
                            (selected database version (descriptors_of sm dataset_id))
                            Pd.empty));
                    Print ("Results saved to "
                           ++ file_name database (descriptors_of sm dataset_id))%string])
               (Return
                  (Some (derive_columns
                           (combine (dataset sm dataset_id)
                              (selected database version (descriptors_of sm dataset_id))
                              Pd.empty)))))
  \/ (forallb two_tokens (descriptors_of sm dataset_id) = false
      /\ download_dataset_results sm dataset_id database version =
         mkRun (warning_part database version (descriptors_of sm dataset_id)
                ++ trace (fetch_loop (dataset sm dataset_id) database version
                            (descriptors_of sm dataset_id) Pd.empty))
               (Raise ValueError)).
Proof.
  assert (D : (truthy database = true /\
               matched_databases database (descriptors_of sm dataset_id) = [])
              \/ (truthy database = true ->
                  matched_databases database (descriptors_of sm dataset_id) <> [])).
  { destruct (truthy database); [|right; discriminate].
    destruct (matched_databases database (descriptors_of sm dataset_id));
      [left; now split|right; discriminate]. }
  destruct D as [[T M]|M].
  - left. destruct (truthy_inv database T) as [d [-> N]]. exists d.
    repeat split; try assumption.
    apply (download_unmatched sm dataset_id d version N M).
  - right. destruct (forallb two_tokens (descriptors_of sm dataset_id)) eqn:W.
    + left. split; [reflexivity|].
      apply (download_run sm dataset_id database version W M).
    + right. split; [reflexivity|].
      apply (download_raises_trace sm dataset_id database version W M).
Qed.

Lemma derive_columns_empty : derive_columns Pd.empty = Pd.empty.
Proof. reflexivity. Qed.

(** X4: a name filter that is empty or holds whitespace equals no parsed
    name, so on descriptors that all split in two the call requests nothing
    and ends either with the not-found None or with the empty table. *)
Theorem X4_filter_with_whitespace (sm : SMInstance) (dataset_id d : string)
    (version : option string) :
  forallb two_tokens (descriptors_of sm dataset_id) = true ->
  token d = false ->
  selected (Some d) version (descriptors_of sm dataset_id) = []
  /\ filter is_results (trace (download_dataset_results sm dataset_id (Some d) version))
     = []
  /\ (outcome (download_dataset_results sm dataset_id (Some d) version) = Return None
      \/ outcome (download_dataset_results sm dataset_id (Some d) version)
         = Return (Some Pd.empty)).
Proof.
  intros W Nd.
  pose proof (selected_token d version _ W Nd) as S. split; [exact S|].
  destruct (download_cases sm dataset_id (Some d) version)
    as [[d' [_ [_ [_ R]]]]|[[_ R]|[W' _]]].
  - rewrite R. cbn [trace outcome]. split; [|now left].
    unfold not_found_events. cbn [filter is_results]. apply no_results_in_prints.
  - rewrite R, S. cbn [trace outcome]. split; [|now right].
    rewrite (results_of_run _ [] _ _ _ (no_results_in_warning _ _ _)). reflexivity.
  - congruence.
Qed.

Lemma X4_witness :
  filter is_results
    (trace (download_dataset_results Sample.two_versions Sample.id (Some "KEGG v1") None))
  = []
  /\ outcome (download_dataset_results Sample.two_versions Sample.id (Some "KEGG v1") None)
     = Return (Some Pd.empty).
Proof.
  destruct (X4_filter_with_whitespace Sample.two_versions Sample.id "KEGG v1" None)
    as [_ [F _]]; try reflexivity.
  split; [exact F|reflexivity].
Defined.

(** X5: the empty string as name filter counts as no filter for the name
    check and the file name but as a name in the loop: on descriptors that
    all split in two the call prints no warning, requests nothing, and
    writes and returns the empty table as all_databases.csv. *)
Theorem X5_empty_string_filter (sm : SMInstance) (dataset_id : string)
    (version : option string) :
  forallb two_tokens (descriptors_of sm dataset_id) = true ->
  download_dataset_results sm dataset_id (Some EmptyString) version =
  mkRun [ToCsv "all_databases.csv" Pd.empty;
         Print "Results saved to all_databases.csv"]
        (Return (Some Pd.empty)).
Proof.
  intros W.
  rewrite (download_run sm dataset_id (Some EmptyString) version W);
    [|discriminate].
  fold (descriptors_of sm dataset_id).
  now rewrite (selected_token EmptyString version _ W eq_refl).
Qed.

Lemma X5_witness :
  download_dataset_results Sample.two_versions Sample.id (Some EmptyString) (Some "v1") =
  mkRun [ToCsv "all_databases.csv" Pd.empty;
         Print "Results saved to all_databases.csv"]
        (Return (Some Pd.empty)).
Proof.
  apply (X5_empty_string_filter Sample.two_versions Sample.id (Some "v1")).
  reflexivity.
Defined.

Lemma blocks_of_constant (A : Type) (x : A) (g : string -> nat) (l : list string) :
  flat_map (fun db => repeat x (g db)) l = repeat x (list_sum (map g l)).
Proof.
  induction l as [|db l IH]; [reflexivity|].
  cbn [flat_map map list_sum fold_right]. now rewrite IH, <- repeat_app.
Qed.

Lemma selects_both (d v db : string) :
  two_tokens db = true ->
  selects (Some d) (Some v) db = true -> PyStr.split db = [d; v].
Proof.
  intros T S. unfold selects in S. cbn [is_none_or_eq] in S.
  apply andb_true_iff in S. destruct S as [Ed Ev].
  apply String.eqb_eq in Ed, Ev. subst d v. apply two_tokens_split, T.
Qed.

Lemma flat_map_ext_in (A B : Type) (f g : A -> list B) (l : list A) :
  (forall x, In x l -> f x = g x) -> flat_map f l = flat_map g l.
Proof.
  induction l as [|x l IH]; [reflexivity|]. intros H. cbn [flat_map].
  rewrite (H x (or_introl eq_refl)), IH; [reflexivity|].
  intros y I. apply H. now right.
Qed.

(** X6: with a non-empty name filter that matches some descriptor and a
    version filter, on descriptors that all split in two, the call prints no
    warning, requests exactly the descriptors whose two tokens are that name
    and that version, and every row of the returned table carries that name
    and that version; the file name is still the one the prefix matches
    decide, whatever the version filter is. *)
Theorem X6_name_and_version_filter (sm : SMInstance) (dataset_id d v : string) :
  d <> EmptyString ->
  matched_databases (Some d) (descriptors_of sm dataset_id) <> [] ->
  forallb two_tokens (descriptors_of sm dataset_id) = true ->
  exists df,
    download_dataset_results sm dataset_id (Some d) (Some v) =
    mkRun (flat_map fetch_events
             (selected (Some d) (Some v) (descriptors_of sm dataset_id))
           ++ [ToCsv (file_name (Some d) (descriptors_of sm dataset_id)) df;
               Print ("Results saved to "
                      ++ file_name (Some d) (descriptors_of sm dataset_id))%string])
          (Return (Some df))
    /\ (forall db, In db (selected (Some d) (Some v) (descriptors_of sm dataset_id)) ->
                   PyStr.split db = [d; v])
    /\ Pd.column "Database" df = repeat (Str d) (index df)
    /\ Pd.column "Version" df = repeat (Str v) (index df)
    /\ (2 <= length (matched_databases (Some d) (descriptors_of sm dataset_id)) ->
        file_name (Some d) (descriptors_of sm dataset_id)
        = (d ++ "_all_versions.csv")%string).
Proof.
  intros N M W. eexists. split.
  { rewrite (download_run sm dataset_id (Some d) (Some v) W (fun _ => M)).
    fold (descriptors_of sm dataset_id). unfold warning_part.
    cbn [is_none]. rewrite andb_false_r. reflexivity. }
  assert (B : forall db,
             In db (selected (Some d) (Some v) (descriptors_of sm dataset_id)) ->
             PyStr.split db = [d; v]).
  { intros db I. unfold selected in I. apply filter_In in I. destruct I as [I S].
    apply selects_both; [|exact S].
    rewrite forallb_forall in W. apply (W db I). }
  split; [exact B|].
  rewrite index_derive_columns, index_combine_empty.
  rewrite !column_derive_columns by discriminate.
  rewrite !column_combine_empty. unfold rows_fetched.
  split; [|split; [|apply (file_name_all_versions d _ N)]].
  - rewrite (flat_map_ext _ _ (column_tagged_Database (dataset sm dataset_id))).
    rewrite <- blocks_of_constant. apply flat_map_ext_in. intros db I.
    unfold name_of. now rewrite (B db I).
  - rewrite (flat_map_ext _ _ (column_tagged_Version (dataset sm dataset_id))).
    rewrite <- blocks_of_constant. apply flat_map_ext_in. intros db I.
    unfold version_of. now rewrite (B db I).
Qed.

Lemma X6_witness :
  exists df,
    download_dataset_results Sample.two_versions Sample.id (Some "KEGG") (Some "v2") =
    mkRun [Print "Processing database: KEGG, version: v2"; Results "KEGG" "v2";
           ToCsv "KEGG_all_versions.csv" df;
           Print "Results saved to KEGG_all_versions.csv"]
          (Return (Some df))
    /\ Pd.column "Version" df = [Str "v2"].
Proof.
  destruct (X6_name_and_version_filter Sample.two_versions Sample.id "KEGG" "v2")
    as [df [R [_ [_ [V _]]]]].
  - discriminate.
  - discriminate.
  - reflexivity.
  - exists df. split; [exact R|]. rewrite V.
    injection R as R. now subst df.
Defined.

(* ================================================================= *)
(** ** Files, requests and exceptions *)

(** X7: a file is written exactly when the call returns a table: then one
    file, written after everything else but the closing message, holding the
    returned table; a call that returns None has neither requested results
    nor written a file, and a call that raises has written none. *)
Theorem X7_file_iff_table (sm : SMInstance) (dataset_id : string)
    (database version : option string) :
  match outcome (download_dataset_results sm dataset_id database version) with
  | Return (Some df) =>
      exists pre fn,
        trace (download_dataset_results sm dataset_id database version)
          = pre ++ [ToCsv fn df; Print ("Results saved to " ++ fn)%string]
        /\ filter is_to_csv pre = []
  | Return None =>
      filter is_to_csv (trace (download_dataset_results sm dataset_id database version))
        = []
      /\ filter is_results
           (trace (download_dataset_results sm dataset_id database version)) = []
  | Raise _ =>
      filter is_to_csv (trace (download_dataset_results sm dataset_id database version))
        = []
  end.
Proof.
  destruct (download_cases sm dataset_id database version)
    as [[d [_ [_ [_ R]]]]|[[_ R]|[_ R]]]; rewrite R; cbn [trace outcome].
  - unfold not_found_events. cbn [filter is_to_csv is_results].
    now rewrite no_to_csv_in_prints, no_results_in_prints.
  - eexists (_ ++ _), _. split; [now rewrite app_assoc|].
    now rewrite filter_app, no_to_csv_in_warning, no_to_csv_in_fetches.
  - now rewrite filter_app, no_to_csv_in_warning, no_to_csv_in_loop.
Qed.

(** X8: the only exception the call raises by itself is the ValueError of
    the unpacking in the loop; the subscripts of lines 76 and 80 never
    fail. *)
Theorem X8_only_value_error (sm : SMInstance) (dataset_id : string)
    (database version : option string) (e : exn) :
  outcome (download_dataset_results sm dataset_id database version) = Raise e ->
  e = ValueError
  /\ forallb two_tokens (descriptors_of sm dataset_id) = false.
Proof.
  destruct (download_cases sm dataset_id database version)
    as [[d [_ [_ [_ R]]]]|[[_ R]|[W R]]]; rewrite R; cbn [outcome];
    try discriminate.
  intros [= <-]. now split.
Qed.

Lemma X8_witness :
  ValueError = ValueError
  /\ forallb two_tokens (descriptors_of Sample.spaced_name Sample.id) = false.
Proof.
  apply (X8_only_value_error Sample.spaced_name Sample.id None None ValueError).
  reflexivity.
Defined.

Lemma fetch_loop_stops (ds : Dataset) (database version : option string)
    (good : list string) (bad : string) (rest : list string) (acc : DataFrame) :
  forallb two_tokens good = true -> two_tokens bad = false ->
  fetch_loop ds database version (good ++ bad :: rest) acc =
  mkRun (flat_map fetch_events (selected database version good)) (Raise ValueError).
Proof.
  revert acc. induction good as [|db good IH]; intros acc W B.
  - simpl. now rewrite (unpack2_raises bad B).
  - cbn [forallb] in W. apply andb_true_iff in W. destruct W as [T W].
    cbn [app]. rewrite (fetch_loop_cons ds database version db _ acc T).
    unfold selected. cbn [filter]. destruct (selects database version db).
    + rewrite fetch_one_run, bind_Return, (IH _ W B). reflexivity.
    + apply (IH _ W B).
Qed.

(** X9: the descriptors are checked one by one inside the loop, so when
    the first descriptor that does not split in two comes after others, the
    results of the selected ones before it have been requested by the time
    the call raises, and no file is written. *)
Theorem X9_requests_before_raise (sm : SMInstance) (dataset_id : string)
    (database version : option string) (good : list string) (bad : string)
    (rest : list string) :
  descriptors_of sm dataset_id = good ++ bad :: rest ->
  forallb two_tokens good = true -> two_tokens bad = false ->
  (truthy database = true ->
   matched_databases database (descriptors_of sm dataset_id) <> []) ->
  download_dataset_results sm dataset_id database version =
  mkRun (warning_part database version (descriptors_of sm dataset_id)
         ++ flat_map fetch_events (selected database version good))
        (Raise ValueError)
  /\ filter is_results (trace (download_dataset_results sm dataset_id database version))
     = map (fun db => Results (name_of db) (version_of db))
           (selected database version good).
Proof.
  intros E W B M.
  assert (F : forallb two_tokens (descriptors_of sm dataset_id) = false).
  { rewrite E, forallb_app. cbn [forallb]. now rewrite B, andb_false_r. }
  assert (R : download_dataset_results sm dataset_id database version =
              mkRun (warning_part database version (descriptors_of sm dataset_id)
                     ++ flat_map fetch_events (selected database version good))
                    (Raise ValueError)).
  { rewrite (download_raises_trace sm dataset_id database version F M).
    f_equal. f_equal. rewrite E.
    now rewrite (fetch_loop_stops _ database version good bad rest _ W B). }
  split; [exact R|]. rewrite R. cbn [trace].
  now rewrite filter_app, no_results_in_warning, is_results_fetch_events.
Qed.

Lemma X9_witness :
  download_dataset_results (Sample.service ["<1:KEGG:v1>"; "<2:Core Metabolome:v3>"])
    Sample.id None None =
  mkRun [Print "Processing database: KEGG, version: v1"; Results "KEGG" "v1"]
        (Raise ValueError).
Proof.
  apply (X9_requests_before_raise
           (Sample.service ["<1:KEGG:v1>"; "<2:Core Metabolome:v3>"])
           Sample.id None None ["KEGG v1"] "Core Metabolome v3" []).
  - reflexivity.
  - reflexivity.
  - reflexivity.
  - discriminate.
Defined.

(* ================================================================= *)
(** ** Tables stay rectangular *)

Lemma rectangular_lookup (c : string) (df : DataFrame) (vs : list cell) :
  rectangular df = true -> Pd.getitem c df = Some vs -> length vs = index df.
Proof.
  unfold rectangular, Pd.getitem. induction (data df) as [|[k w] d IH]; [discriminate|].
  cbn [forallb Pd.lookup snd]. intros R. apply andb_true_iff in R. destruct R as [Rw Rd].
  destruct (String.eqb c k); [|now apply IH].
  intros [= <-]. now apply Nat.eqb_eq.
Qed.

Lemma column_length (c : string) (df : DataFrame) :
  rectangular df = true -> length (Pd.column c df) = index df.
Proof.
  intros R. unfold Pd.column. destruct (Pd.getitem c df) as [vs|] eqn:G.
  - apply (rectangular_lookup c df vs R G).
  - apply repeat_length.
Qed.

Lemma rectangular_setitem (c : string) (vs : list cell) (df : DataFrame) :
  rectangular df = true -> length vs = index df ->
  rectangular (Pd.setitem c vs df) = true.
Proof.
  intros R L. apply Nat.eqb_eq in L. unfold Pd.setitem, rectangular in *.
  destruct (Pd.has_column c df); cbn [data index].
  - rewrite forallb_forall in *. intros kv I. apply in_map_iff in I.
    destruct I as [[k w] [E I]]. cbn [fst] in E.
    destruct (String.eqb c k); subst kv; [exact L|apply (R _ I)].
  - rewrite forallb_app, R. cbn. now rewrite L.
Qed.

Lemma rectangular_concat (a b : DataFrame) :
  rectangular a = true -> rectangular b = true ->
  rectangular (Pd.concat a b) = true.
Proof.
  intros Ra Rb. unfold rectangular, Pd.concat. cbn [data index].
  rewrite forallb_forall. intros kv I. apply in_map_iff in I.
  destruct I as [c [<- _]]. cbn [snd]. apply Nat.eqb_eq.
  now rewrite length_app, !column_length.
Qed.

Lemma rectangular_rename (old new : string) (df : DataFrame) :
  rectangular df = true -> rectangular (Pd.rename old new df) = true.
Proof.
  unfold rectangular, Pd.rename. cbn [data index]. intros R.
  rewrite forallb_forall in *. intros kv I. apply in_map_iff in I.
  destruct I as [[k w] [E I]]. cbn [fst snd] in E.
  specialize (R _ I). cbn [snd] in R.
  destruct (String.eqb k old); subst kv; exact R.
Qed.

Lemma rectangular_derive_columns (df : DataFrame) :
  rectangular df = true -> rectangular (derive_columns df) = true.
Proof.
  intros R. unfold derive_columns.
  assert (A : rectangular (derive_adduct df) = true).
  { unfold derive_adduct. destruct (Pd.has_column "ion" df); [|exact R].
    apply rectangular_setitem; [exact R|].
    now rewrite length_map, column_length. }
  unfold rename_intensity.
  destruct (Pd.has_column "intensity" (derive_adduct df)); [|exact A].
  now apply rectangular_rename.
Qed.

Lemma rectangular_tagged (ds : Dataset) (db : string) :
  rectangular (fetched ds db) = true -> rectangular (tagged ds db) = true.
Proof.
  intros R. unfold tagged, Pd.setitem_scalar.
  apply rectangular_setitem; [apply rectangular_setitem|].
  - exact R.
  - apply repeat_length.
  - now rewrite repeat_length.
Qed.

Lemma rectangular_combine (ds : Dataset) (dbs : list string) (acc : DataFrame) :
  (forall name ver, rectangular (results ds name ver) = true) ->
  rectangular acc = true -> rectangular (combine ds dbs acc) = true.
Proof.
  intros F. revert acc. induction dbs as [|db dbs IH]; intros acc R; [exact R|].
  unfold combine in *. cbn [fold_left]. apply IH.
  apply rectangular_concat; [exact R|]. apply rectangular_tagged, F.
Qed.

(** X10: when every table of the service is rectangular (each column as
    long as the index), so is every table the call returns: each of its
    columns has exactly as many cells as the table has rows. *)
Theorem X10_returned_table_rectangular (sm : SMInstance) (dataset_id : string)
    (database version : option string) (df : DataFrame) :
  (forall name ver, rectangular (results (dataset sm dataset_id) name ver) = true) ->
  outcome (download_dataset_results sm dataset_id database version) = Return (Some df) ->
  rectangular df = true /\ forall c, length (Pd.column c df) = index df.
Proof.
  intros F O.
  assert (R : rectangular df = true).
  { destruct (download_cases sm dataset_id database version)
      as [[d [_ [_ [_ R]]]]|[[_ R]|[_ R]]]; rewrite R in O; cbn [outcome] in O;
      try discriminate.
    injection O as <-. apply rectangular_derive_columns.
    now apply rectangular_combine. }
  split; [exact R|]. intros c. now apply column_length.
Qed.

Lemma X10_witness :
  exists df,
    outcome (download_dataset_results Sample.two_versions Sample.id None None)
      = Return (Some df)
    /\ rectangular df = true
    /\ length (Pd.column "mz" df) = 4.
Proof.
  exists (derive_columns
            (combine (dataset Sample.two_versions Sample.id)
               (descriptors_of Sample.two_versions Sample.id) Pd.empty)).
  split; [reflexivity|].
  destruct (X10_returned_table_rectangular Sample.two_versions Sample.id None None
              (derive_columns
                 (combine (dataset Sample.two_versions Sample.id)
                    (descriptors_of Sample.two_versions Sample.id) Pd.empty)))
    as [R L].
  - intros name ver. simpl.
    destruct (String.eqb name "KEGG"); [destruct (String.eqb ver "v1")|]; reflexivity.
  - reflexivity.
  - split; [exact R|]. rewrite (L "mz"). reflexivity.
Defined.

(* ================================================================= *)
(** ** Column labels *)

Lemma columns_concat (a b : DataFrame) :
  Pd.columns (Pd.concat a b) = Pd.union_columns (Pd.columns a) (Pd.columns b).
Proof.
  unfold Pd.columns at 1, Pd.concat. cbn [data]. rewrite map_map. cbn [fst].
  apply map_id.
Qed.

Lemma existsb_eqb_in (c : string) (l : list string) :
  existsb (String.eqb c) l = true <-> In c l.
Proof.
  rewrite existsb_exists. split.
  - intros [x [I E]]. apply String.eqb_eq in E. now subst x.
  - intros I. exists c. split; [exact I|apply String.eqb_refl].
Qed.

Lemma NoDup_union_columns (a b : list string) :
  NoDup a -> NoDup b -> NoDup (Pd.union_columns a b).
Proof.
  intros Na Nb. unfold Pd.union_columns. apply NoDup_app.
  - exact Na.
  - now apply NoDup_filter.
  - intros c Ia If. apply filter_In in If. destruct If as [_ F].
    apply existsb_eqb_in in Ia. now rewrite Ia in F.
Qed.

Lemma NoDup_columns_setitem (c : string) (vs : list cell) (df : DataFrame) :
  NoDup (Pd.columns df) -> NoDup (Pd.columns (Pd.setitem c vs df)).
Proof.
  intros N. rewrite columns_setitem. destruct (Pd.has_column c df) eqn:H; [exact N|].
  apply NoDup_app; [exact N|repeat constructor; intros []|].
  intros x I [<-|[]]. apply existsb_eqb_in in I.
  unfold Pd.has_column in H. now rewrite I in H.
Qed.

Lemma NoDup_columns_tagged (ds : Dataset) (db : string) :
  NoDup (Pd.columns (fetched ds db)) -> NoDup (Pd.columns (tagged ds db)).
Proof.
  intros N. unfold tagged, Pd.setitem_scalar.
  now apply NoDup_columns_setitem, NoDup_columns_setitem.
Qed.

Lemma NoDup_columns_combine (ds : Dataset) (dbs : list string) (acc : DataFrame) :
  (forall name ver, NoDup (Pd.columns (results ds name ver))) ->
  NoDup (Pd.columns acc) -> NoDup (Pd.columns (combine ds dbs acc)).
Proof.
  intros F. revert acc. induction dbs as [|db dbs IH]; intros acc N; [exact N|].
  unfold combine in *. cbn [fold_left]. apply IH. rewrite columns_concat.
  apply NoDup_union_columns; [exact N|]. apply NoDup_columns_tagged, F.
Qed.

Lemma has_column_concat (c : string) (a b : DataFrame) :
  Pd.has_column c (Pd.concat a b) = Pd.has_column c a || Pd.has_column c b.
Proof.
  unfold Pd.has_column. rewrite columns_concat. apply existsb_union_columns.
Qed.

Lemma has_column_tagged (ds : Dataset) (c db : string) :
  Pd.has_column c (tagged ds db) =
  Pd.has_column c (fetched ds db) || String.eqb c "Database" || String.eqb c "Version".
Proof.
  unfold tagged, Pd.setitem_scalar. now rewrite !has_column_setitem.
Qed.

Lemma has_column_combine (ds : Dataset) (c : string) (dbs : list string)
    (acc : DataFrame) :
  Pd.has_column c (combine ds dbs acc) =
  Pd.has_column c acc || existsb (fun db => Pd.has_column c (tagged ds db)) dbs.
Proof.
  revert acc. induction dbs as [|db dbs IH]; intros acc.
  - cbn. now rewrite orb_false_r.
  - unfold combine in *. cbn [fold_left existsb].
    now rewrite IH, has_column_concat, orb_assoc.
Qed.

Lemma columns_combine_lead (ds : Dataset) (dbs : list string) (acc : DataFrame) :
  exists more, Pd.columns (combine ds dbs acc) = Pd.columns acc ++ more.
Proof.
  revert acc. induction dbs as [|db dbs IH]; intros acc.
  - exists []. cbn. now rewrite app_nil_r.
  - unfold combine in *. cbn [fold_left].
    destruct (IH (Pd.concat acc (tagged ds db))) as [more E].
    rewrite E, columns_concat. unfold Pd.union_columns.
    eexists. now rewrite <- app_assoc.
Qed.

Lemma columns_setitem_lead (c : string) (vs : list cell) (df : DataFrame) :
  exists more, Pd.columns (Pd.setitem c vs df) = Pd.columns df ++ more.
Proof.
  rewrite columns_setitem. destruct (Pd.has_column c df).
  - exists []. now rewrite app_nil_r.
  - now exists [c].
Qed.

Lemma union_columns_nil (b : list string) : Pd.union_columns [] b = b.
Proof.
  unfold Pd.union_columns. cbn. induction b as [|c b IH]; [reflexivity|].
  cbn. now rewrite IH.
Qed.

(** X11: when the tables of the service have no repeated column label, the
    combined table of the loop has none either; it has a column exactly when
    the table of some fetched descriptor has it or the column is one of the
    two tag columns and something was fetched; and its labels begin with
    those of the first fetched table, in their order. *)
Theorem X11_labels_of_combined_table (ds : Dataset) (database version : option string)
    (database_info : list string) :
  forallb two_tokens database_info = true ->
  (forall name ver, NoDup (Pd.columns (results ds name ver))) ->
  exists combined,
    outcome (fetch_loop ds database version database_info Pd.empty) = Return combined
    /\ NoDup (Pd.columns combined)
    /\ (forall c,
          Pd.has_column c combined =
          existsb (fun db => Pd.has_column c (fetched ds db)
                             || String.eqb c "Database" || String.eqb c "Version")
                  (selected database version database_info))
    /\ (forall db rest,
          selected database version database_info = db :: rest ->
          exists more,
            Pd.columns combined = Pd.columns (fetched ds db) ++ more).
Proof.
  intros W F. eexists. split.
  { now rewrite (fetch_loop_ok ds database version database_info Pd.empty W). }
  split; [|split].
  - apply NoDup_columns_combine; [exact F|constructor].
  - intros c. rewrite has_column_combine. cbn [orb].
    change (Pd.has_column c Pd.empty) with false. cbn [orb].
    induction (selected database version database_info) as [|db l IH];
      [reflexivity|].
    cbn [existsb]. now rewrite IH, has_column_tagged.
  - intros db rest ->. unfold combine. cbn [fold_left].
    destruct (columns_combine_lead ds rest (Pd.concat Pd.empty (tagged ds db)))
      as [more E].
    unfold combine in E. rewrite E, columns_concat, union_columns_nil.
    unfold tagged, Pd.setitem_scalar.
    destruct (columns_setitem_lead "Version"
                (repeat (Str (version_of db))
                   (index (Pd.setitem "Database"
                             (repeat (Str (name_of db)) (index (fetched ds db)))
                             (fetched ds db))))
                (Pd.setitem "Database"
                   (repeat (Str (name_of db)) (index (fetched ds db)))
                   (fetched ds db))) as [m2 E2].
    destruct (columns_setitem_lead "Database"
                (repeat (Str (name_of db)) (index (fetched ds db)))
                (fetched ds db)) as [m1 E1].
    rewrite E2, E1. eexists. now rewrite <- !app_assoc.
Qed.

Lemma X11_witness :
  exists combined,
    outcome (fetch_loop (dataset Sample.two_versions Sample.id) None None
               (descriptors_of Sample.two_versions Sample.id) Pd.empty)
      = Return combined
    /\ NoDup (Pd.columns combined)
    /\ Pd.has_column "mz" combined = true.
Proof.
  destruct (X11_labels_of_combined_table (dataset Sample.two_versions Sample.id)
              None None (descriptors_of Sample.two_versions Sample.id))
    as [combined [O [N [H _]]]].
  - reflexivity.
  - intros name ver. simpl.
    destruct (String.eqb name "KEGG"); [destruct (String.eqb ver "v1")|];
      repeat (constructor; [simpl; intuition discriminate|]); constructor.
  - exists combined. split; [exact O|]. split; [exact N|].
    rewrite (H "mz"). reflexivity.
Defined.

Lemma NoDup_map_injective (A B : Type) (f : A -> B) (l : list A) (x y : A) :
  NoDup (map f l) -> In x l -> In y l -> f x = f y -> x = y.
Proof.
  induction l as [|a l IH]; [intros _ []|]. cbn [map]. intros N Ix Iy E.
  inversion N as [|? ? Na Nl]. subst.
  destruct Ix as [<-|Ix]; destruct Iy as [<-|Iy].
  - reflexivity.
  - exfalso. apply Na. rewrite E. now apply in_map.
  - exfalso. apply Na. rewrite <- E. now apply in_map.
  - now apply IH.
Qed.

Lemma NoDup_map_rename (old new : string) (l : list string) :
  NoDup l -> ~ In new l ->
  NoDup (map (fun k => if String.eqb k old then new else k) l).
Proof.
  induction l as [|x l IH]; [constructor|]. intros N Nn.
  inversion N as [|? ? Nx Nl]. subst. cbn [map]. constructor.
  - intros I. apply in_map_iff in I. destruct I as [y [E Iy]].
    destruct (String.eqb y old) eqn:Ey; destruct (String.eqb x old) eqn:Ex.
    + apply String.eqb_eq in Ey, Ex. subst. now apply Nx.
    + subst x. apply Nn. now left.
    + subst y. apply Nn. now right.
    + subst y. now apply Nx.
  - apply IH; [exact Nl|]. intros I. apply Nn. now right.
Qed.

Lemma has_column_in (c : string) (df : DataFrame) :
  Pd.has_column c df = true <-> In c (Pd.columns df).
Proof. apply existsb_eqb_in. Qed.

Lemma rename_intensity_labels (df : DataFrame) :
  NoDup (Pd.columns df) ->
  (NoDup (Pd.columns (rename_intensity df)) <->
   Pd.has_column "intensity" df && Pd.has_column "maxIntensity" df = false).
Proof.
  intros N. unfold rename_intensity.
  destruct (Pd.has_column "intensity" df) eqn:Hi; [|now split].
  cbn [andb]. rewrite columns_rename. split.
  - intros M. destruct (Pd.has_column "maxIntensity" df) eqn:Hm; [|reflexivity].
    apply has_column_in in Hi, Hm.
    pose proof (NoDup_map_injective _ _ _ _ "intensity" "maxIntensity" M Hi Hm eq_refl).
    discriminate.
  - intros Hm. apply NoDup_map_rename; [exact N|].
    intros I. apply has_column_in in I. now rewrite I in Hm.
Qed.

(** X12: on a table without repeated column labels the deriver leaves a
    repeated label exactly when the table has both a column [intensity] and
    a column [maxIntensity]: the renaming then gives two columns named
    [maxIntensity]. *)
Theorem X12_rename_collision (df : DataFrame) :
  NoDup (Pd.columns df) ->
  (NoDup (Pd.columns (derive_columns df)) <->
   Pd.has_column "intensity" df && Pd.has_column "maxIntensity" df = false).
Proof.
  intros N. unfold derive_columns.
  assert (A : NoDup (Pd.columns (derive_adduct df))).
  { unfold derive_adduct. destruct (Pd.has_column "ion" df); [|exact N].
    now apply NoDup_columns_setitem. }
  rewrite (rename_intensity_labels (derive_adduct df) A).
  now rewrite !has_column_derive_adduct by discriminate.
Qed.

Lemma X12_witness :
  NoDup (Pd.columns (derive_columns Sample.kegg_v1))
  /\ ~ NoDup (Pd.columns
                (derive_columns
                   (mkDataFrame 1 [("intensity", [Num 1]); ("maxIntensity", [Num 2])]))).
Proof.
  split.
  - apply (X12_rename_collision Sample.kegg_v1); [|reflexivity].
    repeat (constructor; [simpl; intuition discriminate|]); constructor.
  - intros N.
    apply (X12_rename_collision
             (mkDataFrame 1 [("intensity", [Num 1]); ("maxIntensity", [Num 2])])) in N.
    + discriminate.
    + repeat (constructor; [simpl; intuition discriminate|]); constructor.
Defined.

(* ================================================================= *)
(** ** Extracting twice *)

Lemma alnum_run_all (run : string) :
  all_alnum run = true -> PyStr.alnum_run run = run.
Proof.
  induction run as [|c run IH]; [reflexivity|]. cbn [all_alnum PyStr.alnum_run].
  intros A. apply andb_true_iff in A. destruct A as [Ac A]. now rewrite Ac, IH.
Qed.

Lemma search_adduct_again (s m : string) :
  PyStr.search_adduct s = Some m -> PyStr.search_adduct m = Some m.
Proof.
  intros H. apply search_adduct_sound in H.
  destruct H as [p [[run [q [_ [-> [Nr [A _]]]]]] _]].
  rewrite search_adduct_eq. unfold PyStr.match_adduct. rewrite Ascii.eqb_refl.
  rewrite (alnum_run_all run A). now destruct run.
Qed.

(** X13: what the extraction returns is a fixed point of the extraction:
    extracting again from an extracted adduct gives the same text, and NaN
    stays NaN; the text found is a plus sign followed by at least one
    character, all of them from [[A-Za-z0-9]]. *)
Theorem X13_extract_twice (v : cell) :
  Pd.str_extract (Pd.str_extract v) = Pd.str_extract v
  /\ (forall m, Pd.str_extract v = Str m ->
        exists run, m = String "+" run /\ run <> EmptyString /\ all_alnum run = true)
  /\ (forall n, Pd.str_extract v <> Num n).
Proof.
  destruct v as [|s|n]; cbn [Pd.str_extract].
  - repeat split; intros; discriminate.
  - destruct (PyStr.search_adduct s) as [m|] eqn:E.
    + split; [|split; [|discriminate]].
      * cbn [Pd.str_extract]. now rewrite (search_adduct_again s m E).
      * intros m' [= <-]. apply search_adduct_sound in E.
        destruct E as [p [[run [q [_ [-> [Nr [A _]]]]]] _]]. now exists run.
    + repeat split; intros; discriminate.
  - repeat split; intros; discriminate.
Qed.

Lemma X13_witness :
  exists run, "+Na" = String "+" run /\ run <> EmptyString /\ all_alnum run = true.
Proof.
  destruct (X13_extract_twice (Str "C6H12O6+Na+")) as [_ [S _]].
  apply (S "+Na"). reflexivity.
Defined.

(* ================================================================= *)
(** ** Descriptors in the usual form *)

Lemma prefix_app (d x : string) : String.prefix d (d ++ x) = true.
Proof.
  induction d as [|c d IH]; [now destruct x|]. cbn [append String.prefix].
  destruct (ascii_dec c c); [exact IH|congruence].
Qed.

Lemma canonical_two_tokens (l : list string) :
  forallb canonical l = true -> forallb two_tokens l = true.
Proof.
  induction l as [|db l IH]; [reflexivity|]. cbn [forallb]. intros C.
  apply andb_true_iff in C. destruct C as [Cd C]. rewrite (IH C).
  unfold canonical in Cd. apply andb_true_iff in Cd. now destruct Cd as [-> _].
Qed.

Lemma canonical_prefix (db : string) :
  canonical db = true -> prefix_matches (name_of db) db = true.
Proof.
  unfold canonical. intros C. apply andb_true_iff in C. destruct C as [_ E].
  apply String.eqb_eq in E. unfold prefix_matches, PyStr.startswith.
  rewrite E at 2. apply prefix_app.
Qed.

Lemma selected_is_matched (d : string) (version : option string) (l : list string)
    (db : string) :
  forallb canonical l = true ->
  In db (selected (Some d) version l) -> In db (matched_databases (Some d) l).
Proof.
  intros C I. unfold selected in I. apply filter_In in I. destruct I as [I S].
  unfold matched_databases. apply filter_In. split; [exact I|]. cbn [fmt].
  unfold selects in S. cbn [is_none_or_eq] in S.
  apply andb_true_iff in S. destruct S as [E _]. apply String.eqb_eq in E. subst d.
  rewrite forallb_forall in C. apply (canonical_prefix db (C db I)).
Qed.

(** X14: when every descriptor string is its name, one space and its
    version, a descriptor the loop selects by name is one the name check has
    matched; so if the loop has something to select the call is never turned
    away with None: it returns the table of the selected descriptors, with
    one request per selected descriptor. *)
Theorem X14_named_database_is_found (sm : SMInstance) (dataset_id d : string)
    (version : option string) :
  forallb canonical (descriptors_of sm dataset_id) = true ->
  selected (Some d) version (descriptors_of sm dataset_id) <> [] ->
  (forall db, In db (selected (Some d) version (descriptors_of sm dataset_id)) ->
              In db (matched_databases (Some d) (descriptors_of sm dataset_id)))
  /\ exists df,
       outcome (download_dataset_results sm dataset_id (Some d) version)
         = Return (Some df)
       /\ filter is_results
            (trace (download_dataset_results sm dataset_id (Some d) version))
          = map (fun db => Results (name_of db) (version_of db))
                (selected (Some d) version (descriptors_of sm dataset_id))
       /\ index df
          = rows_fetched (dataset sm dataset_id)
              (selected (Some d) version (descriptors_of sm dataset_id)).
Proof.
  intros C S.
  pose proof (canonical_two_tokens _ C) as W.
  assert (I : forall db,
             In db (selected (Some d) version (descriptors_of sm dataset_id)) ->
             In db (matched_databases (Some d) (descriptors_of sm dataset_id))).
  { intros db. now apply selected_is_matched. }
  split; [exact I|].
  assert (M : matched_databases (Some d) (descriptors_of sm dataset_id) <> []).
  { destruct (selected (Some d) version (descriptors_of sm dataset_id)) as [|db l] eqn:E;
      [congruence|].
    intros Z. specialize (I db (or_introl eq_refl)). now rewrite Z in I. }
  rewrite (download_run sm dataset_id (Some d) version W (fun _ => M)).
  fold (descriptors_of sm dataset_id). cbn [trace outcome].
  eexists. split; [reflexivity|]. split.
  - apply results_of_run, no_results_in_warning.
  - now rewrite index_derive_columns, index_combine_empty.
Qed.

Lemma X14_witness :
  exists df,
    outcome (download_dataset_results Sample.two_versions Sample.id (Some "KEGG") (Some "v2"))
      = Return (Some df)
    /\ index df = 1.
Proof.
  destruct (X14_named_database_is_found Sample.two_versions Sample.id "KEGG" (Some "v2"))
    as [_ [df [O [_ I]]]].
  - reflexivity.
  - discriminate.
  - exists df. split; [exact O|exact I].
Defined.

(* ================================================================= *)
(** ** The example invocation *)

(** X15: the example invocation checks for None before it touches the
    columns: when no descriptor string of the dataset starts with KEGG it
    prints the not-found report, prints nothing about columns, and ends
    normally. *)
Theorem X15_main_checks_for_none (index_repr : list string -> string)
    (sm : SMInstance) :
  matched_databases (Some "KEGG") (descriptors_of sm "2022-08-05_17h28m56s") = [] ->
  main index_repr sm =
  mkRun (not_found_events "KEGG" (descriptors_of sm "2022-08-05_17h28m56s"))
        (Return tt).
Proof.
  intros M. unfold main.
  rewrite (download_unmatched sm "2022-08-05_17h28m56s" "KEGG" None); [|discriminate|exact M].
  rewrite bind_Return. cbn [trace outcome ret]. unfold not_found_events.
  fold (descriptors_of sm "2022-08-05_17h28m56s"). now rewrite app_nil_r.
Qed.

Lemma X15_witness :
  main (fun _ => EmptyString) (Sample.service ["<3:HMDB:v4>"]) =
  mkRun [Print "Could not find database: KEGG";
         Print "Available databases and versions:";
         Print "HMDB v4"]
        (Return tt).
Proof.
  apply (X15_main_checks_for_none (fun _ => EmptyString) (Sample.service ["<3:HMDB:v4>"])).
  reflexivity.
Defined.

(** X16: when some descriptor string starts with KEGG and every descriptor
    splits in two, the example invocation performs the call and then prints
    the column labels of the returned table and their number in decimal;
    the number counts the two tag columns whenever a descriptor named KEGG
    was fetched. *)
Theorem X16_main_reports_columns (index_repr : list string -> string)
    (sm : SMInstance) :
  matched_databases (Some "KEGG") (descriptors_of sm "2022-08-05_17h28m56s") <> [] ->
  forallb two_tokens (descriptors_of sm "2022-08-05_17h28m56s") = true ->
  exists df,
    outcome (download_dataset_results sm "2022-08-05_17h28m56s" (Some "KEGG") None)
      = Return (Some df)
    /\ main index_repr sm =
       mkRun (trace (download_dataset_results sm "2022-08-05_17h28m56s" (Some "KEGG") None)
              ++ [Print (index_repr (Pd.columns df));
                  Print ("Number of columns: " ++ decimal (length (Pd.columns df)))%string])
             (Return tt)
    /\ (selected (Some "KEGG") None (descriptors_of sm "2022-08-05_17h28m56s") <> [] ->
        Pd.has_column "Database" df = true /\ Pd.has_column "Version" df = true).
Proof.
  intros M W. unfold main.
  rewrite (download_run sm "2022-08-05_17h28m56s" (Some "KEGG") None W (fun _ => M)).
  fold (descriptors_of sm "2022-08-05_17h28m56s").
  eexists. split; [reflexivity|]. split.
  - rewrite bind_Return. cbn [trace outcome]. reflexivity.
  - intros S. unfold derive_columns.
    rewrite !has_column_rename_intensity, !has_column_derive_adduct by discriminate.
    rewrite !has_column_combine.
    destruct (selected (Some "KEGG") None (descriptors_of sm "2022-08-05_17h28m56s"))
      as [|db l]; [congruence|].
    cbn [existsb]. rewrite !has_column_tagged. cbn.
    now rewrite !orb_true_r.
Qed.

Lemma X16_witness :
  exists df,
    main (fun _ => EmptyString) Sample.two_versions =
    mkRun (trace (download_dataset_results Sample.two_versions Sample.id (Some "KEGG") None)
           ++ [Print EmptyString; Print "Number of columns: 6"])
          (Return tt)
    /\ Pd.has_column "Database" df = true.
Proof.
  destruct (X16_main_reports_columns (fun _ => EmptyString) Sample.two_versions)
    as [df [O [R H]]].
  - discriminate.
  - reflexivity.
  - exists df. split; [|apply H; discriminate].
    rewrite R. injection O as <-. reflexivity.
Defined.

(* ================================================================= *)
(** ** The derived columns of the returned table *)

Lemma map_flat_map_blocks (A B C : Type) (f : B -> C) (g : A -> list B) (l : list A) :
  map f (flat_map g l) = flat_map (fun x => map f (g x)) l.
Proof.
  induction l as [|x l IH]; [reflexivity|]. cbn [flat_map].
  now rewrite map_app, IH.
Qed.

Lemma has_ion_tagged (ds : Dataset) (l : list string) :
  existsb (fun db => Pd.has_column "ion" (tagged ds db)) l =
  existsb (fun db => Pd.has_column "ion" (fetched ds db)) l.
Proof.
  induction l as [|db l IH]; [reflexivity|].
  cbn [existsb]. rewrite IH, has_column_tagged. cbn.
  now rewrite !orb_false_r.
Qed.

(** X17: when every descriptor splits in two, the call gets past the name
    check and the table of some fetched descriptor has a column [ion], the
    column [Adduct] of the returned table is, block by block in descriptor
    order, the extraction from the [ion] column of each fetched table; the
    rows of a fetched table that has no [ion] column get NaN. *)
Theorem X17_adduct_of_returned_table (sm : SMInstance) (dataset_id : string)
    (database version : option string) :
  forallb two_tokens (descriptors_of sm dataset_id) = true ->
  (truthy database = true ->
   matched_databases database (descriptors_of sm dataset_id) <> []) ->
  existsb (fun db => Pd.has_column "ion" (fetched (dataset sm dataset_id) db))
    (selected database version (descriptors_of sm dataset_id)) = true ->
  exists df,
    outcome (download_dataset_results sm dataset_id database version)
      = Return (Some df)
    /\ Pd.column "Adduct" df =
       flat_map (fun db => map Pd.str_extract
                             (Pd.column "ion" (fetched (dataset sm dataset_id) db)))
         (selected database version (descriptors_of sm dataset_id))
    /\ (forall db, Pd.has_column "ion" (fetched (dataset sm dataset_id) db) = false ->
          map Pd.str_extract (Pd.column "ion" (fetched (dataset sm dataset_id) db))
          = repeat NaN (index (fetched (dataset sm dataset_id) db))).
Proof.
  intros W M I.
  rewrite (download_run sm dataset_id database version W M).
  fold (descriptors_of sm dataset_id). cbn [outcome].
  eexists. split; [reflexivity|]. split.
  - unfold Pd.column at 1. rewrite getitem_Adduct.
    + rewrite column_combine_empty, map_flat_map_blocks.
      apply flat_map_ext. intros db.
      now rewrite column_tagged_other by discriminate.
    + rewrite has_column_combine. cbn [orb].
      change (Pd.has_column "ion" Pd.empty) with false. cbn [orb].
      now rewrite has_ion_tagged.
  - intros db H. rewrite (column_absent "ion" _ H).
    induction (index (fetched (dataset sm dataset_id) db)) as [|k IH];
      [reflexivity|].
    cbn [repeat map]. now rewrite IH.
Qed.

Lemma X17_witness :
  exists df,
    outcome (download_dataset_results Sample.two_versions Sample.id None None)
      = Return (Some df)
    /\ Pd.column "Adduct" df = [Str "+Na"; NaN; Str "+K"; NaN].
Proof.
  destruct (X17_adduct_of_returned_table Sample.two_versions Sample.id None None)
    as [df [O [A _]]].
  - reflexivity.
  - discriminate.
  - reflexivity.
  - exists df. split; [exact O|exact A].
Defined.

Lemma getitem_rename_new (old new : string) (df : DataFrame) :
  Pd.has_column new df = false ->
  Pd.getitem new (Pd.rename old new df) = Pd.getitem old df.
Proof.
  unfold Pd.has_column, Pd.columns, Pd.getitem, Pd.rename. cbn [data].
  induction (data df) as [|[k w] d IH]; [reflexivity|].
  cbn [map existsb fst snd Pd.lookup]. intros H.
  apply orb_false_iff in H. destruct H as [Hk Hd].
  rewrite (String.eqb_sym old k). destruct (String.eqb k old) eqn:E.
  - cbn [Pd.lookup]. now rewrite String.eqb_refl.
  - cbn [Pd.lookup]. rewrite Hk. apply IH, Hd.
Qed.

(** X18: when the table has a column [intensity] and no column
    [maxIntensity], the deriver keeps the values under the new name and
    keeps the place of the column: the labels are those of the table with
    [intensity] replaced by [maxIntensity] where it stood, followed by
    [Adduct] if that column was added. *)
Theorem X18_rename_keeps_values_and_place (df : DataFrame) :
  Pd.has_column "intensity" df = true ->
  Pd.has_column "maxIntensity" df = false ->
  Pd.getitem "maxIntensity" (derive_columns df) = Pd.getitem "intensity" df
  /\ Pd.columns (derive_columns df) =
     map (fun k => if String.eqb k "intensity" then "maxIntensity" else k)
         (Pd.columns df)
     ++ (if Pd.has_column "ion" df && negb (Pd.has_column "Adduct" df)
         then ["Adduct"] else []).
Proof.
  intros Hi Hm. unfold derive_columns, rename_intensity.
  rewrite has_column_derive_adduct, Hi by discriminate. split.
  - rewrite getitem_rename_new
      by (now rewrite has_column_derive_adduct by discriminate).
    unfold derive_adduct. destruct (Pd.has_column "ion" df); [|reflexivity].
    now apply getitem_setitem_other.
  - rewrite columns_rename. unfold derive_adduct.
    destruct (Pd.has_column "ion" df); cbn [andb]; [|now rewrite app_nil_r].
    rewrite columns_setitem.
    destruct (Pd.has_column "Adduct" df); cbn [negb]; [now rewrite app_nil_r|].
    now rewrite map_app.
Qed.

Lemma X18_witness :
  Pd.getitem "maxIntensity" (derive_columns Sample.kegg_v1) = Some [Num 10; Num 20]
  /\ Pd.columns (derive_columns Sample.kegg_v1) = ["ion"; "maxIntensity"; "Adduct"].
Proof.
  destruct (X18_rename_keeps_values_and_place Sample.kegg_v1) as [G C];
    try reflexivity.
  split; [exact G|exact C].
Defined.
